(** * BinarySignal: the overnight-return switching backtest and the one-shot signal

    A shallow embedding of [StockBinaryComparison.py] (aligner, execution
    model, switching loop, passive baseline, run statistics) and of the
    decision part of [signal2.py].

    Numbers.  The Python code computes on float64.  Here every float is an
    exact rational ([Q]): finite values, no rounding, no NaN and no
    infinities.  What Python floats do on a zero divisor is kept: [/] and
    [//] raise [ZeroDivisionError].  A missing value (NaN) exists only in the
    raw tables handed to [align_two], as [None].  Python [int] is [Z].

    Dates.  A pandas [Timestamp] is its number of nanoseconds since the
    epoch; [(a - b).days] is the floor of the difference in days.

    Tables.  A frame is the list of its rows in index order; [.loc[dt]] reads
    the first row of that date.  [sort_index] is taken to keep the order of
    rows of equal date, and [str.lower], [str.upper] act on ASCII letters.

    Ghost state.  The loop state carries [switch_log], one record per
    executed switch, which the Python code does not keep; the loop never
    reads it, and [log_inv] ties it to the counters the code does keep. *)

From Stdlib Require Import ZArith QArith Qround Qabs Lqa Lia List Bool String Ascii.
From Stdlib Require Import Permutation.
Import ListNotations.

Local Open Scope Q_scope.

(** ** Exceptions and the error monad *)

Inductive exn : Type :=
| ZeroDivisionError
| KeyError
| IndexError
| ValueError.

Inductive result (A : Type) : Type :=
| Ok (a : A)
| Raise (e : exn).

Arguments Ok {A} a.
Arguments Raise {A} e.

Definition bind {A B : Type} (m : result A) (k : A -> result B) : result B :=
  match m with
  | Ok a => k a
  | Raise e => Raise e
  end.

Notation "x <- m ;; k" := (bind m (fun x => k))
  (at level 61, m at next level, right associativity).

(** ** Float operations (exact) *)

Definition Qltb (x y : Q) : bool := negb (Qle_bool y x).
Definition Qgtb (x y : Q) : bool := Qltb y x.

(** [x / y] on Python floats. *)
Definition truediv (x y : Q) : result Q :=
  if Qeq_bool y 0 then Raise ZeroDivisionError else Ok (x / y).

(** [int(x // y)] on Python floats. *)
Definition int_floordiv (x y : Q) : result Z :=
  if Qeq_bool y 0 then Raise ZeroDivisionError else Ok (Qfloor (x / y)).

(** [1e4] *)
Definition bps : Q := 10000 # 1.

(** ** Strings: [str.lower] on ASCII *)

Definition lower_ascii (c : ascii) : ascii :=
  let n := nat_of_ascii c in
  if andb (Nat.leb 65 n) (Nat.leb n 90) then ascii_of_nat (n + 32) else c.

Fixpoint lower (s : string) : string :=
  match s with
  | EmptyString => EmptyString
  | String c r => String (lower_ascii c) (lower r)
  end.

(** ** Execution model *)

Record TradeParams : Type := mkTradeParams {
  hysteresis_bps : Q;
  cooldown_days : Z;
  fee_bps : Q;
  slippage_bps : Q
}.

(** The trade parameters of [DEFAULTS]. *)
Definition DEFAULTS : TradeParams := mkTradeParams 7 7 0 0.

Definition exec_price (open_px slippage_bps : Q) (side : string) : Q :=
  let s := slippage_bps / bps in
  if String.eqb (lower side) "buy" then open_px * (1 + s)
  else open_px * (1 - s).

Definition fee_on_notional (notional fee_bps : Q) : Q :=
  Qabs notional * (fee_bps / bps).


(** ** Tables

    A [DataFrame] is the aligned table: one row per index entry, in index
    order, with the four float columns [Open_Stock1], [Close_Stock1],
    [Open_Stock2], [Close_Stock2].  A [Series] is an index with one column. *)

Definition Timestamp : Type := Z.

Definition ns_per_day : Z := 86400000000000.

(** [(a - b).days] *)
Definition td_days (a b : Timestamp) : Z := ((a - b) / ns_per_day)%Z.

Record Row : Type := mkRow {
  date : Timestamp;
  Open_1 : Q;
  Close_1 : Q;
  Open_2 : Q;
  Close_2 : Q
}.

Definition DataFrame : Type := list Row.

Definition Series : Type := list (Timestamp * Q).

Definition index (data : DataFrame) : list Timestamp := map date data.

Definition col1d (frame : DataFrame) (col : Row -> Q) : Series :=
  map (fun r => (date r, col r)) frame.

(** [series.loc[dt]], the first row when [dt] occurs more than once. *)
Fixpoint sget (series : Series) (dt : Timestamp) : result Q :=
  match series with
  | [] => Raise KeyError
  | (d, v) :: rest => if Z.eqb d dt then Ok v else sget rest dt
  end.

(** [idx[k]] *)
Definition iloc (idx : list Timestamp) (k : nat) : result Timestamp :=
  match nth_error idx k with
  | Some d => Ok d
  | None => Raise IndexError
  end.

Fixpoint is_unique (l : list Timestamp) : bool :=
  match l with
  | [] => true
  | d :: rest => negb (existsb (Z.eqb d) rest) && is_unique rest
  end.

(** [frame[~frame.index.duplicated(keep="first")]] *)
Fixpoint drop_duplicated {A : Type} (key : A -> Timestamp)
    (seen : list Timestamp) (l : list A) : list A :=
  match l with
  | [] => []
  | a :: rest =>
      if existsb (Z.eqb (key a)) seen then drop_duplicated key seen rest
      else a :: drop_duplicated key (key a :: seen) rest
  end.

(** ** Price series aligner *)

(** A row of a per-asset table as downloaded: a missing value is [None]. *)
Record RawRow : Type := mkRawRow {
  rdate : Timestamp;
  ropen : option Q;
  rclose : option Q
}.

Record JoinedRow : Type := mkJoinedRow {
  jdate : Timestamp;
  jopen1 : option Q;
  jclose1 : option Q;
  jopen2 : option Q;
  jclose2 : option Q
}.

Fixpoint insert_by_date {A : Type} (key : A -> Timestamp) (a : A) (l : list A)
    : list A :=
  match l with
  | [] => [a]
  | b :: rest =>
      if Z.ltb (key a) (key b) then a :: b :: rest
      else b :: insert_by_date key a rest
  end.

(** [sort_index()], as a sort that keeps the order of equal dates. *)
Definition sort_index {A : Type} (key : A -> Timestamp) (l : list A) : list A :=
  fold_right (insert_by_date key) [] (rev l).

(** The part of [fetch_data] after the download. *)
Definition fetch_data (downloaded : list RawRow) : result (list RawRow) :=
  match downloaded with
  | [] => Raise ValueError
  | _ => Ok (sort_index rdate downloaded)
  end.

(** [left.join(right, how="inner")]: every pair of rows with the same date,
    in the order of the left table. *)
Definition join_inner (left right : list RawRow) : list JoinedRow :=
  flat_map
    (fun l =>
       map (fun r => mkJoinedRow (rdate l) (ropen l) (rclose l) (ropen r) (rclose r))
           (filter (fun r => Z.eqb (rdate r) (rdate l)) right))
    left.

Definition dropna (l : list JoinedRow) : list JoinedRow :=
  filter
    (fun j =>
       match jopen1 j, jclose1 j, jopen2 j, jclose2 j with
       | Some _, Some _, Some _, Some _ => true
       | _, _, _, _ => false
       end)
    l.

Definition align_two (left right : list RawRow) : list JoinedRow :=
  let combined := dropna (sort_index jdate (join_inner left right)) in
  if negb (is_unique (map jdate combined))
  then drop_duplicated jdate [] combined
  else combined.

(** The aligned table as the engine reads it: no value is missing. *)
Definition float_or_zero (v : option Q) : Q :=
  match v with Some q => q | None => 0 end.

Definition to_frame (l : list JoinedRow) : DataFrame :=
  map (fun j => mkRow (jdate j) (float_or_zero (jopen1 j)) (float_or_zero (jclose1 j))
                      (float_or_zero (jopen2 j)) (float_or_zero (jclose2 j)))
      l.

(** ** Switching engine *)

(** Ghost record of one executed switch; the code keeps only the counters.
    [ev_cash_after_notional] is the cash right after the purchase notional is
    subtracted, [ev_cash_after_buy] the cash after the buy-leg fee too. *)
Record SwitchEvent : Type := mkSwitchEvent {
  ev_i : nat;
  ev_date : Timestamp;
  ev_held1 : bool;
  ev_edge_bps : Q;
  ev_open1 : Q;
  ev_open2 : Q;
  ev_buy_px : Q;
  ev_cash_before_buy : Q;
  ev_new_shares : Z;
  ev_cash_after_notional : Q;
  ev_cash_after_buy : Q;
  ev_close1 : Q;
  ev_close2 : Q
}.

Record State : Type := mkState {
  shares1 : Z;
  shares2 : Z;
  cash : Q;
  holding1 : bool;
  last_switch_date : option Timestamp;
  eq_active : list Q;
  pos_flag : list Z;
  switches : Z;
  turnover_notional : Q;
  switch_hits : list bool;
  switch_log : list SwitchEvent
}.

Definition init_state (shares1_init shares2_init : Z) (cash_init : Q) : State :=
  mkState shares1_init shares2_init cash_init (Z.ltb 0 shares1_init) None
          [] [] 0%Z 0 [] [].

(** Step 1: the overnight-return edge, for a date that has a predecessor. *)
Definition overnight_edge (open1 prev_close1 open2 prev_close2 : Q) : result Q :=
  r1 <- truediv (open1 - prev_close1) prev_close1 ;;
  r2 <- truediv (open2 - prev_close2) prev_close2 ;;
  Ok ((r2 - r1) * bps).

(** Step 2: [cooldown_ok] *)
Definition cooldown_ok (last : option Timestamp) (dt : Timestamp)
    (cooldown : Z) : bool :=
  match last with
  | None => true
  | Some l => Z.geb (td_days dt l) cooldown
  end.

(** Step 3: [(do_switch, target_is_2)] *)
Definition decide_switch (i : nat) (cd_ok holding1 : bool)
    (edge_bps hysteresis : Q) : bool * bool :=
  if Nat.ltb 0 i && cd_ok then
    if holding1 && Qgtb edge_bps hysteresis then (true, true)
    else if negb holding1 && Qltb edge_bps (- hysteresis) then (true, false)
    else (false, false)
  else (false, false).

(** Step 4a: the sell leg. *)
Definition sell_leg (params : TradeParams) (open1 open2 : Q) (st : State) : State :=
  if holding1 st then
    let sell_px := exec_price open1 (slippage_bps params) "sell" in
    let notional := inject_Z (shares1 st) * sell_px in
    let cash1 := cash st + notional in
    let cash2 := cash1 - fee_on_notional notional (fee_bps params) in
    mkState 0 (shares2 st) cash2 (holding1 st) (last_switch_date st)
            (eq_active st) (pos_flag st) (switches st)
            (turnover_notional st + Qabs notional) (switch_hits st) (switch_log st)
  else
    let sell_px := exec_price open2 (slippage_bps params) "sell" in
    let notional := inject_Z (shares2 st) * sell_px in
    let cash1 := cash st + notional in
    let cash2 := cash1 - fee_on_notional notional (fee_bps params) in
    mkState (shares1 st) 0 cash2 (holding1 st) (last_switch_date st)
            (eq_active st) (pos_flag st) (switches st)
            (turnover_notional st + Qabs notional) (switch_hits st) (switch_log st).

(** Steps 4b to 4d: the buy leg, the bookkeeping and the hit observation.
    [held1] and [edge_bps] only feed the ghost log. *)
Definition buy_leg (params : TradeParams) (i : nat) (dt : Timestamp)
    (target_is_2 held1 : bool) (edge_bps open1 close1 open2 close2 : Q)
    (st : State) : result State :=
  let target_open := if target_is_2 then open2 else open1 in
  let buy_px := exec_price target_open (slippage_bps params) "buy" in
  new_shares <- int_floordiv (cash st) buy_px ;;
  let notional := inject_Z new_shares * buy_px in
  let cash1 := cash st - notional in
  let cash2 := cash1 - fee_on_notional notional (fee_bps params) in
  let ev := mkSwitchEvent i dt held1 edge_bps open1 open2 buy_px (cash st)
                          new_shares cash1 cash2 close1 close2 in
  hit <- (if target_is_2 && Nat.ltb 0 i then
            q <- truediv close2 close1 ;; Ok [Qgtb q 1]
          else if negb target_is_2 && Nat.ltb 0 i then
            q <- truediv close1 close2 ;; Ok [Qgtb q 1]
          else Ok []) ;;
  Ok (mkState (if target_is_2 then shares1 st else (shares1 st + new_shares)%Z)
              (if target_is_2 then (shares2 st + new_shares)%Z else shares2 st)
              cash2 (negb target_is_2) (Some dt)
              (eq_active st) (pos_flag st) (switches st + 1)%Z
              (turnover_notional st + Qabs notional)
              (switch_hits st ++ hit) (switch_log st ++ [ev])).

(** Step 5: mark to close. *)
Definition mark_to_close (close1 close2 : Q) (st : State) : State :=
  let equity_today :=
    inject_Z (shares1 st) * close1 + inject_Z (shares2 st) * close2 + cash st in
  mkState (shares1 st) (shares2 st) (cash st) (holding1 st) (last_switch_date st)
          (eq_active st ++ [equity_today])
          (pos_flag st ++ [if holding1 st then 1%Z else (-1)%Z])
          (switches st) (turnover_notional st) (switch_hits st) (switch_log st).

(** The edge of date number [i]. *)
Definition edge_at (idx : list Timestamp) (c1 c2 : Series) (i : nat)
    (open1 open2 : Q) : result Q :=
  if Nat.eqb i 0 then Ok 0
  else
    prev_dt <- iloc idx (i - 1) ;;
    prev_close1 <- sget c1 prev_dt ;;
    prev_close2 <- sget c2 prev_dt ;;
    overnight_edge open1 prev_close1 open2 prev_close2.

(** The body of [for i, dt in enumerate(idx)]. *)
Definition step (params : TradeParams) (idx : list Timestamp)
    (o1 c1 o2 c2 : Series) (st : State) (it : nat * Timestamp) : result State :=
  let '(i, dt) := it in
  open1 <- sget o1 dt ;;
  close1 <- sget c1 dt ;;
  open2 <- sget o2 dt ;;
  close2 <- sget c2 dt ;;
  edge_bps <- edge_at idx c1 c2 i open1 open2 ;;
  let cd_ok := cooldown_ok (last_switch_date st) dt (cooldown_days params) in
  let '(do_switch, target_is_2) :=
    decide_switch i cd_ok (holding1 st) edge_bps (hysteresis_bps params) in
  st' <- (if do_switch then
            buy_leg params i dt target_is_2 (holding1 st) edge_bps
                    open1 close1 open2 close2 (sell_leg params open1 open2 st)
          else Ok st) ;;
  Ok (mark_to_close close1 close2 st').

Fixpoint for_each {S A : Type} (body : S -> A -> result S) (l : list A) (st : S)
    : result S :=
  match l with
  | [] => Ok st
  | a :: rest => st' <- body st a ;; for_each body rest st'
  end.

Definition enumerate {A : Type} (l : list A) : list (nat * A) :=
  combine (seq 0 (List.length l)) l.

(** The active loop of [backtest_switching], up to the last date. *)
Definition active_loop (data : DataFrame) (shares1_init shares2_init : Z)
    (cash_init : Q) (params : TradeParams) : result State :=
  let idx := index data in
  let o1 := col1d data Open_1 in
  let c1 := col1d data Close_1 in
  let o2 := col1d data Open_2 in
  let c2 := col1d data Close_2 in
  for_each (step params idx o1 c1 o2 c2) (enumerate idx)
           (init_state shares1_init shares2_init cash_init).

(** ** Passive baseline *)

(** [k * s] and [s + t] on series of one frame, and [s + x]. *)
Definition series_scale (k : Z) (s : Series) : Series :=
  map (fun p => (fst p, inject_Z k * snd p)) s.

Definition series_add (s t : Series) : Series :=
  map (fun p => (fst (fst p), snd (fst p) + snd (snd p))) (combine s t).

Definition series_shift (s : Series) (x : Q) : Series :=
  map (fun p => (fst p, snd p + x)) s.

(** [series.reindex(idx)]: a date that is not in the series gives NaN. *)
Definition reindex (s : Series) (idx : list Timestamp) : list (option Q) :=
  map (fun dt => match sget s dt with Ok v => Some v | Raise _ => None end) idx.

Definition passive_equity (data : DataFrame) (shares1_init shares2_init : Z)
    (cash_init : Q) : list (option Q) :=
  let idx := index data in
  let c1 := col1d data Close_1 in
  let c2 := col1d data Close_2 in
  let s := series_shift
             (series_add (series_scale shares1_init c1)
                         (series_scale shares2_init c2))
             cash_init in
  let s := if negb (is_unique (map fst s)) then drop_duplicated fst [] s else s in
  reindex s idx.

(** ** Results and statistics *)

Record Results : Type := mkResults {
  res_index : list Timestamp;
  Equity_Active : list Q;
  Equity_Passive : list (option Q);
  PositionFlag : list Z
}.

(** [HitRate] is [None] for NaN. *)
Record Stats : Type := mkStats {
  Switches : Z;
  Turnover_Notional : Q;
  HitRate : option Q
}.

Definition count_true (l : list bool) : nat := List.length (filter (fun b => b) l).

(** [float(np.mean(switch_hits)) if len(switch_hits) else np.nan] *)
Definition hit_rate (hits : list bool) : option Q :=
  match hits with
  | [] => None
  | _ => Some (inject_Z (Z.of_nat (count_true hits))
               / inject_Z (Z.of_nat (List.length hits)))
  end.

Definition backtest_switching (data : DataFrame) (shares1_init shares2_init : Z)
    (cash_init : Q) (params : TradeParams) : result (Results * Stats) :=
  let passive := passive_equity data shares1_init shares2_init cash_init in
  st <- active_loop data shares1_init shares2_init cash_init params ;;
  Ok (mkResults (index data) (eq_active st) passive (pos_flag st),
      mkStats (switches st) (turnover_notional st) (hit_rate (switch_hits st))).

(** ** The one-shot signal of [signal2.py] *)

Definition upper_ascii (c : ascii) : ascii :=
  let n := nat_of_ascii c in
  if andb (Nat.leb 97 n) (Nat.leb n 122) then ascii_of_nat (n - 32) else c.

Fixpoint upper (s : string) : string :=
  match s with
  | EmptyString => EmptyString
  | String c r => String (upper_ascii c) (upper r)
  end.

Inductive Action : Type :=
| SwitchToB
| HoldA
| SwitchToA
| HoldB.

(** The decision of [main], from the fetched closes and opens. *)
Definition signal2_action (oA cA oB cB : Q) (holding_arg : string) (delta : Q)
    : result Action :=
  rA <- truediv (oA - cA) cA ;;
  rB <- truediv (oB - cB) cB ;;
  let edge_bps := (rB - rA) * bps in
  let holding := upper holding_arg in
  if String.eqb holding "A" then
    if Qgtb edge_bps delta then Ok SwitchToB else Ok HoldA
  else
    if Qgtb (- edge_bps) delta then Ok SwitchToA else Ok HoldB.

(** What the engine's decision means for a holder of A (asset 1) or B. *)
Definition engine_action (holding1 : bool) (decision : bool * bool) : Action :=
  match decision with
  | (true, true) => SwitchToB
  | (true, false) => SwitchToA
  | (false, _) => if holding1 then HoldA else HoldB
  end.

(** ** Vocabulary of the statements *)

(** The row that [.loc[dt]] reads. *)
Definition first_row (data : DataFrame) (dt : Timestamp) : option Row :=
  find (fun r => Z.eqb (date r) dt) data.

Fixpoint strictly_increasing (l : list Timestamp) : bool :=
  match l with
  | a :: (b :: _) as rest => Z.ltb a b && strictly_increasing rest
  | _ => true
  end.

(** The invariants of an aligned table: dates strictly increasing and every
    close positive. *)
Definition valid_table (data : DataFrame) : bool :=
  strictly_increasing (index data)
  && forallb (fun r => Qltb 0 (Close_1 r) && Qltb 0 (Close_2 r)) data.

(** The edge the loop computes at each date, in date order. *)
Definition edge_series (data : DataFrame) : list (result Q) :=
  let idx := index data in
  map (fun it : nat * Timestamp =>
         open1 <- sget (col1d data Open_1) (snd it) ;;
         open2 <- sget (col1d data Open_2) (snd it) ;;
         edge_at idx (col1d data Close_1) (col1d data Close_2) (fst it) open1 open2)
      (enumerate idx).

(** No edge of the table is beyond the threshold on either side. *)
Definition never_exceeds (data : DataFrame) (hysteresis : Q) : bool :=
  forallb (fun e => match e with
                    | Ok q => Qle_bool (Qabs q) hysteresis
                    | Raise _ => true
                    end)
          (edge_series data).

(** The same-day observation of a switch: the asset switched into closed
    higher than the asset switched out of. *)
Definition hit_observation (ev : SwitchEvent) : bool :=
  if ev_held1 ev then Qgtb (ev_close2 ev / ev_close1 ev) 1
  else Qgtb (ev_close1 ev / ev_close2 ev) 1.

Fixpoint last_opt {A : Type} (l : list A) : option A :=
  match l with
  | [] => None
  | a :: rest => match rest with [] => Some a | _ => last_opt rest end
  end.

(** [R] holds between every element and the next one. *)
Fixpoint chain {A : Type} (R : A -> A -> Prop) (l : list A) : Prop :=
  match l with
  | a :: (b :: _) as rest => R a b /\ chain R rest
  | _ => True
  end.

(** What the loop guarantees of every logged switch. *)
Definition event_ok (params : TradeParams) (idx : list Timestamp)
    (o1 c1 o2 c2 : Series) (ev : SwitchEvent) : Prop :=
  (0 < ev_i ev)%nat /\
  nth_error idx (ev_i ev) = Some (ev_date ev) /\
  edge_at idx c1 c2 (ev_i ev) (ev_open1 ev) (ev_open2 ev) = Ok (ev_edge_bps ev) /\
  (if ev_held1 ev then hysteresis_bps params < ev_edge_bps ev
   else ev_edge_bps ev < - hysteresis_bps params) /\
  sget o1 (ev_date ev) = Ok (ev_open1 ev) /\
  sget c1 (ev_date ev) = Ok (ev_close1 ev) /\
  sget o2 (ev_date ev) = Ok (ev_open2 ev) /\
  sget c2 (ev_date ev) = Ok (ev_close2 ev) /\
  ev_buy_px ev =
    exec_price (if ev_held1 ev then ev_open2 ev else ev_open1 ev)
               (slippage_bps params) "buy" /\
  ~ ev_buy_px ev == 0 /\
  ev_new_shares ev = Qfloor (ev_cash_before_buy ev / ev_buy_px ev) /\
  ev_cash_after_notional ev =
    ev_cash_before_buy ev - inject_Z (ev_new_shares ev) * ev_buy_px ev /\
  ev_cash_after_buy ev =
    ev_cash_after_notional ev
    - fee_on_notional (inject_Z (ev_new_shares ev) * ev_buy_px ev) (fee_bps params) /\
  ~ (if ev_held1 ev then ev_close1 ev else ev_close2 ev) == 0.

(** The loop invariant that ties the ghost log to the counters of the code. *)
Definition log_inv (params : TradeParams) (idx : list Timestamp)
    (o1 c1 o2 c2 : Series) (st : State) : Prop :=
  switches st = Z.of_nat (List.length (switch_log st)) /\
  switch_hits st = map hit_observation (switch_log st) /\
  last_switch_date st = option_map ev_date (last_opt (switch_log st)) /\
  chain (fun a b => (cooldown_days params <= td_days (ev_date b) (ev_date a))%Z)
        (switch_log st) /\
  Forall (event_ok params idx o1 c1 o2 c2) (switch_log st).

(** The state after marking every row to close without ever switching. *)
Definition hold_all (rows : list Row) (st : State) : State :=
  fold_left (fun s r => mark_to_close (Close_1 r) (Close_2 r) s) rows st.

Definition positive_opens (data : DataFrame) : bool :=
  forallb (fun r => Qltb 0 (Open_1 r) && Qltb 0 (Open_2 r)) data.

(** The cash of the run is never negative right after a buy leg. *)
Definition buy_leg_keeps_cash_nonneg (data : DataFrame) (s1 s2 : Z) (cash0 : Q)
    (params : TradeParams) : Prop :=
  forall st ev,
    active_loop data s1 s2 cash0 params = Ok st ->
    In ev (switch_log st) ->
    0 <= ev_cash_after_buy ev.

(** A non-first date whose previous close is zero or negative makes the run
    raise. *)
Definition rejects_bad_prev_close (data : DataFrame) (s1 s2 : Z) (cash0 : Q)
    (params : TradeParams) : Prop :=
  (exists k r,
     nth_error data k = Some r /\ (Datatypes.S k < List.length data)%nat /\
     (Close_1 r <= 0 \/ Close_2 r <= 0)) ->
  exists e, backtest_switching data s1 s2 cash0 params = Raise e.

(** ** Sample tables *)

Definition day (n : Z) : Timestamp := (n * ns_per_day)%Z.

(** Three trading days, the last a week after the second: asset 2 opens 50%
    up on the second day, asset 1 opens 25% up on the third. *)
Definition sample_table : DataFrame :=
  [ mkRow (day 0) 16 16 16 16;
    mkRow (day 1) 16 16 24 24;
    mkRow (day 8) 20 20 24 20 ].

(** 7 bps of hysteresis, 7 days of cooldown, no fee, no slippage. *)
Definition sample_params : TradeParams := DEFAULTS.

(** The same with a fee of 625 bps per leg. *)
Definition fee_params : TradeParams := mkTradeParams 7 7 625 0.

(** A threshold no edge of [sample_table] reaches. *)
Definition quiet_params : TradeParams := mkTradeParams (1000000000 # 1) 7 0 0.

(** A table whose first close of asset 1 is negative. *)
Definition negative_close_table : DataFrame :=
  [ mkRow (day 0) 16 (-16) 16 16;
    mkRow (day 1) 16 16 24 24 ].

(** A table whose first close of asset 2 is zero. *)
Definition zero_close_table : DataFrame :=
  [ mkRow (day 0) 16 16 16 0;
    mkRow (day 1) 16 16 24 24 ].

(** ** The rest of the two scripts *)

(** Dates in non-decreasing order. *)
Fixpoint nondecreasing (l : list Timestamp) : bool :=
  match l with
  | a :: (b :: _) as rest => Z.leb a b && nondecreasing rest
  | _ => true
  end.

(** A row of the aligned table is the join of a left and a right row. *)
Definition joins (a b : RawRow) (j : JoinedRow) : Prop :=
  jdate j = rdate a /\ rdate b = rdate a /\
  jopen1 j = ropen a /\ jclose1 j = rclose a /\
  jopen2 j = ropen b /\ jclose2 j = rclose b.

Definition complete (a : RawRow) : Prop :=
  ropen a <> None /\ rclose a <> None.

(** [main] of the backtest script, from the two downloads to the results:
    fetch both tables, align them, run the backtest. *)
Definition main_backtest (download1 download2 : list RawRow)
    (shares1 shares2 : Z) (cash_arg : Q) (params : TradeParams)
    : result (Results * Stats) :=
  d1 <- fetch_data download1 ;;
  d2 <- fetch_data download2 ;;
  let data := to_frame (align_two d1 d2) in
  backtest_switching data shares1 shares2 cash_arg params.

(** The portfolio valued at the opens of the date. *)
Definition value_at_open (open1 open2 : Q) (st : State) : Q :=
  inject_Z (shares1 st) * open1 + inject_Z (shares2 st) * open2 + cash st.

(** The state holds shares of the asset it is flagged to hold only. *)
Definition only_held (st : State) : Prop :=
  if holding1 st then shares2 st = 0%Z else shares1 st = 0%Z.

(** The action with the two labels exchanged. *)
Definition swap_labels (a : Action) : Action :=
  match a with
  | SwitchToB => SwitchToA
  | HoldA => HoldB
  | SwitchToA => SwitchToB
  | HoldB => HoldA
  end.

(** The [PositionFlag] of a holding. *)
Definition position_flag (h : bool) : Z := if h then 1%Z else (-1)%Z.

(** The holding after [k] switches, from the holding [h0]. *)
Definition holding_after (k : nat) (h0 : bool) : bool :=
  if Nat.even k then h0 else negb h0.

(** *** [today_open]

    One answer of the provider to the 1-minute download: the [Open] column
    when the frame has one ([None] when it has not); the frame is empty when
    the column has no row.  [provider k] is the answer to attempt number [k]. *)
Definition Download : Type := option (list Q).

Definition first_open (df : Download) : option Q :=
  match df with
  | Some (o :: _) => Some o
  | _ => None
  end.

(** The loop of [today_open] from attempt [k], [n] attempts left: the open, or
    [None] when [RuntimeError] is raised, with the number of [time.sleep]
    calls made. *)
Fixpoint today_open_from (provider : nat -> Download) (k n : nat)
    : option Q * nat :=
  match n with
  | O => (None, 0%nat)
  | Datatypes.S n' =>
      match first_open (provider k) with
      | Some o => (Some o, 0%nat)
      | None =>
          let '(r, sleeps) := today_open_from provider (Datatypes.S k) n' in
          (r, Datatypes.S sleeps)
      end
  end.

Definition today_open (provider : nat -> Download) (retries : Z)
    : option Q * nat :=
  today_open_from provider 0 (Z.to_nat retries).

(** *** The maximum drawdown of [compute_metrics]

    Series arithmetic does not raise on a zero divisor: it gives an infinity
    or NaN, which [min] skips. *)
Inductive xfloat : Type :=
| Fin (q : Q)
| PosInf
| NegInf
| NaN.

Definition series_truediv (x y : Q) : xfloat :=
  if Qeq_bool y 0 then
    if Qeq_bool x 0 then NaN else if Qltb 0 x then PosInf else NegInf
  else Fin (x / y).

Definition xsub (a : xfloat) (q : Q) : xfloat :=
  match a with
  | Fin x => Fin (x - q)
  | other => other
  end.

Definition Qmax2 (m x : Q) : Q := if Qle_bool m x then x else m.

Fixpoint cummax_from (m : Q) (l : list Q) : list Q :=
  match l with
  | [] => []
  | x :: rest => Qmax2 m x :: cummax_from (Qmax2 m x) rest
  end.

(** [px.cummax()] *)
Definition cummax (px : list Q) : list Q :=
  match px with
  | [] => []
  | x :: rest => x :: cummax_from x rest
  end.

(** [px / rolling_max - 1.0] *)
Definition drawdowns (px : list Q) : list xfloat :=
  map (fun p => xsub (series_truediv (fst p) (snd p)) 1) (combine px (cummax px)).

(** The smaller of two values, a NaN being skipped. *)
Definition xmin (a b : xfloat) : xfloat :=
  match a, b with
  | NaN, _ => b
  | _, NaN => a
  | NegInf, _ => NegInf
  | _, NegInf => NegInf
  | PosInf, _ => b
  | _, PosInf => a
  | Fin x, Fin y => if Qle_bool x y then Fin x else Fin y
  end.

(** [dd.min()] *)
Definition series_min (dd : list xfloat) : xfloat := fold_right xmin NaN dd.

(** [equity_curve.dropna()] *)
Definition dropna_curve (equity_curve : list (option Q)) : list Q :=
  flat_map (fun v => match v with Some q => [q] | None => [] end) equity_curve.

(** The [MaxDrawdown] entry of [compute_metrics]. *)
Definition max_drawdown (equity_curve : list (option Q)) : xfloat :=
  let px := dropna_curve equity_curve in
  let dd := drawdowns px in
  match dd with
  | [] => NaN
  | _ => series_min dd
  end.

(** Values in non-decreasing order. *)
Fixpoint never_falls (px : list Q) : Prop :=
  match px with
  | a :: (b :: _) as rest => a <= b /\ never_falls rest
  | _ => True
  end.

(** ** Facts on the float operations *)

Lemma Qltb_lt (x y : Q) : Qltb x y = true <-> x < y.
Proof.
  unfold Qltb. rewrite negb_true_iff.
  split; intro H.
  - apply Qnot_le_lt. intro L. apply Qle_bool_iff in L. congruence.
  - destruct (Qle_bool y x) eqn:E; [|reflexivity].
    apply Qle_bool_iff in E. apply Qlt_not_le in H. contradiction.
Qed.

Lemma Qltb_false (x y : Q) : Qltb x y = false <-> y <= x.
Proof.
  unfold Qltb. rewrite negb_false_iff. apply Qle_bool_iff.
Qed.

Lemma Qgtb_gt (x y : Q) : Qgtb x y = true <-> y < x.
Proof. apply Qltb_lt. Qed.

Lemma Qeq_bool_false (x y : Q) : Qeq_bool x y = false <-> ~ x == y.
Proof.
  split; intro H.
  - intro E. apply Qeq_bool_iff in E. congruence.
  - destruct (Qeq_bool x y) eqn:E; [|reflexivity].
    apply Qeq_bool_iff in E. contradiction.
Qed.

Lemma truediv_ok (x y : Q) : ~ y == 0 -> truediv x y = Ok (x / y).
Proof.
  intro H. unfold truediv. apply Qeq_bool_false in H. now rewrite H.
Qed.

Lemma truediv_zero (x y : Q) : y == 0 -> truediv x y = Raise ZeroDivisionError.
Proof.
  intro H. unfold truediv. apply Qeq_bool_iff in H. now rewrite H.
Qed.

Lemma int_floordiv_ok (x y : Q) :
  ~ y == 0 -> int_floordiv x y = Ok (Qfloor (x / y)).
Proof.
  intro H. unfold int_floordiv. apply Qeq_bool_false in H. now rewrite H.
Qed.

(** The floored share count never costs more than the cash at hand, and
    leaves less than one share's price. *)
Lemma floor_notional_le (cash px : Q) :
  0 < px -> inject_Z (Qfloor (cash / px)) * px <= cash.
Proof.
  intro Hpx.
  assert (H := Qfloor_le (cash / px)).
  apply (Qmult_le_compat_r _ _ px) in H; [|apply Qlt_le_weak; exact Hpx].
  setoid_replace (cash / px * px) with cash in H; [exact H|].
  field. intro E. rewrite E in Hpx. apply (Qlt_irrefl 0). exact Hpx.
Qed.

Lemma fee_on_notional_nonneg (notional f : Q) :
  0 <= f -> 0 <= fee_on_notional notional f.
Proof.
  intro Hf. unfold fee_on_notional.
  apply Qmult_le_0_compat.
  - apply Qabs_nonneg.
  - unfold bps. apply Qle_shift_div_l; [reflexivity|]. lra.
Qed.

(** C9: [exec_price] is [open * (1 + slippage/10000)] for a buy and
    [open * (1 - slippage/10000)] for a sell (the side is compared after
    lower-casing, and every side that is not a buy is priced as a sell), and
    [fee_on_notional] is [|notional| * fee_bps/10000], which is non-negative
    whenever [fee_bps >= 0]. *)
Theorem exec_price_and_fee (open_px slip notional f : Q) :
  exec_price open_px slip "buy" = open_px * (1 + slip / (10000 # 1)) /\
  exec_price open_px slip "BUY" = open_px * (1 + slip / (10000 # 1)) /\
  exec_price open_px slip "sell" = open_px * (1 - slip / (10000 # 1)) /\
  (forall side : string,
     String.eqb (lower side) "buy" = false ->
     exec_price open_px slip side = open_px * (1 - slip / (10000 # 1))) /\
  fee_on_notional notional f = Qabs notional * (f / (10000 # 1)) /\
  (0 <= f -> 0 <= fee_on_notional notional f).
Proof.
  split; [reflexivity|]. split; [reflexivity|]. split; [reflexivity|].
  split; [|split; [reflexivity|apply fee_on_notional_nonneg]].
  intros side Hside. unfold exec_price. rewrite Hside. reflexivity.
Qed.

Lemma exec_price_and_fee_witness :
  0 <= 625 # 1 /\ 0 <= fee_on_notional (-240) (625 # 1).
Proof.
  split; [discriminate|].
  apply (exec_price_and_fee 24 0 (-240) (625 # 1)).
  discriminate.
Defined.

(** ** The loop combinator *)

Section ForEach.
Context {S A : Type} (body : S -> A -> result S).

Lemma for_each_inv (P : S -> Prop) (l : list A) :
  (forall s a s', In a l -> P s -> body s a = Ok s' -> P s') ->
  forall st st', P st -> for_each body l st = Ok st' -> P st'.
Proof.
  induction l as [|a l IH]; intros Hstep st st' HP Hrun; simpl in Hrun.
  - now inversion Hrun; subst.
  - destruct (body st a) as [s1|e] eqn:E; simpl in Hrun; [|discriminate].
    apply (IH (fun s x s' Hin => Hstep s x s' (or_intror Hin)) s1 st');
      [|exact Hrun].
    apply (Hstep st a s1); [now left|exact HP|exact E].
Qed.

Lemma for_each_total (P : S -> Prop) (l : list A) :
  (forall s a, In a l -> P s -> exists s', body s a = Ok s' /\ P s') ->
  forall st, P st -> exists st', for_each body l st = Ok st' /\ P st'.
Proof.
  induction l as [|a l IH]; intros Hstep st HP; simpl.
  - now exists st.
  - destruct (Hstep st a (or_introl eq_refl) HP) as [s1 [E HP1]].
    rewrite E. simpl.
    apply IH; [|exact HP1].
    intros s x Hin. apply Hstep. now right.
Qed.

(** When no iteration can raise anything but [e] and one iteration raises
    it from every state, the loop raises [e]. *)
Lemma for_each_raises (e : exn) (l : list A) :
  (forall s a e', In a l -> body s a = Raise e' -> e' = e) ->
  (exists a, In a l /\ forall s, body s a = Raise e) ->
  forall st, for_each body l st = Raise e.
Proof.
  induction l as [|a l IH]; intros Honly [b [Hin Hb]] st.
  - destruct Hin.
  - simpl. destruct (body st a) as [s1|e'] eqn:E; simpl.
    + destruct Hin as [->|Hin]; [rewrite Hb in E; discriminate|].
      apply IH.
      * intros s x e0 Hx. apply Honly. now right.
      * now exists b.
    + f_equal. apply (Honly st a e'); [now left|exact E].
Qed.
End ForEach.

(** ** Indexes and lookups *)

Lemma in_combine_seq {A : Type} (l : list A) (k i : nat) (a : A) :
  In (i, a) (combine (seq k (List.length l)) l) ->
  (k <= i)%nat /\ nth_error l (i - k) = Some a.
Proof.
  revert k. induction l as [|b l IH]; intros k Hin; simpl in Hin.
  - destruct Hin.
  - destruct Hin as [E|Hin].
    + inversion E; subst. split; [lia|]. now rewrite Nat.sub_diag.
    + apply IH in Hin. destruct Hin as [Hle Hnth].
      split; [lia|].
      replace (i - k)%nat with (Datatypes.S (i - Datatypes.S k)) by lia.
      exact Hnth.
Qed.

Lemma in_enumerate {A : Type} (l : list A) (i : nat) (a : A) :
  In (i, a) (enumerate l) -> nth_error l i = Some a.
Proof.
  intro Hin. apply in_combine_seq in Hin.
  destruct Hin as [_ H]. now rewrite Nat.sub_0_r in H.
Qed.

Lemma nth_error_combine_seq {A : Type} (l : list A) (k i : nat) (a : A) :
  nth_error l i = Some a -> In ((k + i)%nat, a) (combine (seq k (List.length l)) l).
Proof.
  revert i k. induction l as [|b l IH]; intros i k Hnth.
  - destruct i; discriminate.
  - destruct i as [|i]; simpl in *.
    + inversion Hnth; subst. left. f_equal. lia.
    + right. replace (k + Datatypes.S i)%nat with (Datatypes.S k + i)%nat by lia.
      now apply IH.
Qed.

Lemma nth_error_enumerate {A : Type} (l : list A) (i : nat) (a : A) :
  nth_error l i = Some a -> In (i, a) (enumerate l).
Proof.
  intro H. apply (nth_error_combine_seq l 0 i a H).
Qed.

Lemma sget_col1d (data : DataFrame) (col : Row -> Q) (dt : Timestamp) :
  sget (col1d data col) dt =
  match first_row data dt with
  | Some r => Ok (col r)
  | None => Raise KeyError
  end.
Proof.
  unfold first_row. induction data as [|r data IH]; simpl; [reflexivity|].
  destruct (Z.eqb (date r) dt); [reflexivity|exact IH].
Qed.

Lemma first_row_some (data : DataFrame) (dt : Timestamp) :
  In dt (index data) ->
  exists r, first_row data dt = Some r /\ In r data /\ date r = dt.
Proof.
  unfold first_row, index. induction data as [|r data IH]; simpl; intro Hin.
  - destruct Hin.
  - destruct (Z.eqb (date r) dt) eqn:E.
    + exists r. apply Z.eqb_eq in E. auto.
    + destruct Hin as [Hd|Hin]; [apply Z.eqb_neq in E; contradiction|].
      destruct (IH Hin) as [r' [F [I D]]]. exists r'. auto.
Qed.

(** ** Lists of events *)

Lemma last_opt_snoc {A : Type} (l : list A) (x : A) : last_opt (l ++ [x]) = Some x.
Proof.
  induction l as [|a l IH]; [reflexivity|].
  simpl. destruct (l ++ [x]) eqn:E; [|exact IH].
  destruct l; discriminate.
Qed.

Lemma chain_snoc {A : Type} (R : A -> A -> Prop) (l : list A) (x : A) :
  chain R l -> (forall a, last_opt l = Some a -> R a x) -> chain R (l ++ [x]).
Proof.
  induction l as [|a l IH]; intros Hc Hlast; [exact I|].
  destruct l as [|b l].
  - simpl. split; [|exact I]. now apply Hlast.
  - destruct Hc as [Hab Hc]. split; [exact Hab|].
    apply IH; [exact Hc|]. intros c Hl. apply Hlast. exact Hl.
Qed.

Lemma chain_nth {A : Type} (R : A -> A -> Prop) (l : list A) :
  chain R l ->
  forall k a b,
    nth_error l k = Some a -> nth_error l (Datatypes.S k) = Some b -> R a b.
Proof.
  induction l as [|x l IH]; intros Hc k a b Ha Hb.
  - destruct k; discriminate.
  - destruct l as [|y l]; [destruct k; discriminate|].
    destruct Hc as [Hxy Hc].
    destruct k as [|k].
    + simpl in Ha, Hb. inversion Ha; inversion Hb; subst. exact Hxy.
    + apply (IH Hc k a b); assumption.
Qed.

(** ** The decision *)

Lemma decide_switch_first (cd h : bool) (e hy : Q) :
  decide_switch 0 cd h e hy = (false, false).
Proof. reflexivity. Qed.

Lemma decide_switch_fires (i : nat) (cd h t : bool) (e hy : Q) :
  decide_switch i cd h e hy = (true, t) ->
  (0 < i)%nat /\ cd = true /\ t = h /\ (if h then hy < e else e < - hy).
Proof.
  unfold decide_switch.
  destruct (Nat.ltb 0 i) eqn:Ei; simpl; [|discriminate].
  apply Nat.ltb_lt in Ei.
  destruct cd; simpl; [|discriminate].
  destruct h; simpl.
  - destruct (Qgtb e hy) eqn:G; intro H; inversion H; subst.
    apply Qgtb_gt in G. auto.
  - destruct (Qltb e (- hy)) eqn:L; intro H; inversion H; subst.
    apply Qltb_lt in L. auto.
Qed.

Lemma decide_switch_holds (i : nat) (cd h : bool) (e hy : Q) :
  Qabs e <= hy -> decide_switch i cd h e hy = (false, false).
Proof.
  intro Habs. unfold decide_switch.
  destruct (Nat.ltb 0 i && cd); [|reflexivity].
  assert (Hu : e <= hy) by (eapply Qle_trans; [apply Qle_Qabs|exact Habs]).
  assert (Hl : - hy <= e).
  { assert (H := Qle_Qabs (- e)). rewrite Qabs_opp in H. lra. }
  assert (G : Qgtb e hy = false) by (apply Qltb_false; exact Hu).
  assert (L : Qltb e (- hy) = false) by (apply Qltb_false; exact Hl).
  rewrite G, L. now rewrite !andb_false_r.
Qed.

(** A switch fires only with no prior switch or after the cooldown. *)
Lemma cooldown_ok_fires (i : nat) (last : option Timestamp) (dt : Timestamp)
    (cooldown : Z) (h t : bool) (e hy : Q) :
  decide_switch i (cooldown_ok last dt cooldown) h e hy = (true, t) ->
  last = None \/ exists l, last = Some l /\ (cooldown <= td_days dt l)%Z.
Proof.
  intro D. apply decide_switch_fires in D. destruct D as (_ & Hcd & _).
  destruct last as [l|]; [right|now left].
  exists l. split; [reflexivity|]. simpl in Hcd. now apply Z.geb_le.
Qed.

(** An edge equal to the threshold of the held side does not switch. *)
Lemma decide_switch_at_threshold (i : nat) (cd h : bool) (e hy : Q) :
  (if h then e == hy else e == - hy) ->
  fst (decide_switch i cd h e hy) = false.
Proof.
  intro He. unfold decide_switch.
  destruct (Nat.ltb 0 i && cd); [|reflexivity].
  destruct h; simpl.
  - assert (G : Qgtb e hy = false) by (apply Qltb_false; rewrite He; apply Qle_refl).
    now rewrite G.
  - assert (L : Qltb e (- hy) = false)
      by (apply Qltb_false; rewrite He; apply Qle_refl).
    now rewrite L.
Qed.

(** ** One iteration *)

Lemma bind_ok_inv {A B : Type} (m : result A) (k : A -> result B) (b : B) :
  bind m k = Ok b -> exists a, m = Ok a /\ k a = Ok b.
Proof.
  destruct m as [a|e]; simpl; intro H; [|discriminate]. now exists a.
Qed.

Lemma step_inv (params : TradeParams) (idx : list Timestamp)
    (o1 c1 o2 c2 : Series) (st st' : State) (i : nat) (dt : Timestamp) :
  step params idx o1 c1 o2 c2 st (i, dt) = Ok st' ->
  exists open1 close1 open2 close2 edge,
    sget o1 dt = Ok open1 /\ sget c1 dt = Ok close1 /\
    sget o2 dt = Ok open2 /\ sget c2 dt = Ok close2 /\
    edge_at idx c1 c2 i open1 open2 = Ok edge /\
    let d := decide_switch i
               (cooldown_ok (last_switch_date st) dt (cooldown_days params))
               (holding1 st) edge (hysteresis_bps params) in
    ((fst d = false /\ st' = mark_to_close close1 close2 st) \/
     (exists t st2,
        d = (true, t) /\
        buy_leg params i dt t (holding1 st) edge open1 close1 open2 close2
                (sell_leg params open1 open2 st) = Ok st2 /\
        st' = mark_to_close close1 close2 st2)).
Proof.
  unfold step. intro H.
  apply bind_ok_inv in H. destruct H as [open1 [E1 H]].
  apply bind_ok_inv in H. destruct H as [close1 [E2 H]].
  apply bind_ok_inv in H. destruct H as [open2 [E3 H]].
  apply bind_ok_inv in H. destruct H as [close2 [E4 H]].
  apply bind_ok_inv in H. destruct H as [edge [E5 H]].
  exists open1, close1, open2, close2, edge.
  repeat (split; [assumption|]).
  cbv zeta.
  destruct (decide_switch i _ (holding1 st) edge (hysteresis_bps params))
    as [do_switch t] eqn:D.
  apply bind_ok_inv in H. destruct H as [st2 [E6 H]].
  inversion H; subst st'; clear H.
  destruct do_switch.
  - right. exists t, st2. auto.
  - left. inversion E6; subst. auto.
Qed.

Lemma buy_leg_inv (params : TradeParams) (i : nat) (dt : Timestamp)
    (t held : bool) (e open1 close1 open2 close2 : Q) (s s2 : State) :
  (0 < i)%nat ->
  buy_leg params i dt t held e open1 close1 open2 close2 s = Ok s2 ->
  let px := exec_price (if t then open2 else open1) (slippage_bps params) "buy" in
  let n := Qfloor (cash s / px) in
  let notional := inject_Z n * px in
  ~ px == 0 /\
  ~ (if t then close1 else close2) == 0 /\
  s2 = mkState (if t then shares1 s else (shares1 s + n)%Z)
               (if t then (shares2 s + n)%Z else shares2 s)
               (cash s - notional - fee_on_notional notional (fee_bps params))
               (negb t) (Some dt) (eq_active s) (pos_flag s) (switches s + 1)%Z
               (turnover_notional s + Qabs notional)
               (switch_hits s ++
                  [Qgtb (if t then close2 / close1 else close1 / close2) 1])
               (switch_log s ++
                  [mkSwitchEvent i dt held e open1 open2 px (cash s) n
                     (cash s - notional)
                     (cash s - notional - fee_on_notional notional (fee_bps params))
                     close1 close2]).
Proof.
  intros Hi H. cbv zeta. unfold buy_leg in H.
  apply Nat.ltb_lt in Hi. rewrite Hi in H. rewrite !andb_true_r in H.
  unfold int_floordiv, truediv in H.
  destruct (Qeq_bool (exec_price (if t then open2 else open1) _ "buy") 0) eqn:Epx;
    [discriminate|].
  apply Qeq_bool_false in Epx. simpl in H.
  destruct t; simpl in H.
  - destruct (Qeq_bool close1 0) eqn:Ec; [discriminate|].
    apply Qeq_bool_false in Ec. simpl in H. inversion H. auto.
  - destruct (Qeq_bool close2 0) eqn:Ec; [discriminate|].
    apply Qeq_bool_false in Ec. simpl in H. inversion H. auto.
Qed.

Lemma sell_leg_bookkeeping (params : TradeParams) (open1 open2 : Q) (st : State) :
  let s := sell_leg params open1 open2 st in
  holding1 s = holding1 st /\ last_switch_date s = last_switch_date st /\
  eq_active s = eq_active st /\ pos_flag s = pos_flag st /\
  switches s = switches st /\ switch_hits s = switch_hits st /\
  switch_log s = switch_log st.
Proof.
  unfold sell_leg. destruct (holding1 st) eqn:H; simpl; rewrite ?H; repeat split.
Qed.

Lemma step_log_inv (params : TradeParams) (idx : list Timestamp)
    (o1 c1 o2 c2 : Series) (st st' : State) (it : nat * Timestamp) :
  In it (enumerate idx) ->
  log_inv params idx o1 c1 o2 c2 st ->
  step params idx o1 c1 o2 c2 st it = Ok st' ->
  log_inv params idx o1 c1 o2 c2 st'.
Proof.
  destruct it as [i dt]. intros Hin Hinv Hstep.
  apply in_enumerate in Hin.
  apply step_inv in Hstep.
  destruct Hstep as (open1 & close1 & open2 & close2 & edge & E1 & E2 & E3 & E4 & E5 & Hd).
  cbv zeta in Hd.
  destruct Hd as [[_ ->]|(t & st2 & D & Hbuy & ->)]; [exact Hinv|].
  apply decide_switch_fires in D. destruct D as (Hi & Hcd & -> & Hcross).
  apply (buy_leg_inv _ _ _ _ _ _ _ _ _ _ _ _ Hi) in Hbuy.
  cbv zeta in Hbuy. destruct Hbuy as (Hpx & Hclose & ->).
  destruct (sell_leg_bookkeeping params open1 open2 st)
    as (_ & _ & _ & _ & Esw & Ehits & Elog).
  destruct Hinv as (Icount & Ihits & Ilast & Ichain & Iall).
  unfold log_inv, mark_to_close; simpl.
  rewrite Esw, Ehits, Elog.
  split; [|split; [|split; [|split]]].
  - rewrite length_app. simpl. lia.
  - rewrite map_app, Ihits. simpl. unfold hit_observation. simpl.
    now destruct (holding1 st).
  - now rewrite last_opt_snoc.
  - apply chain_snoc; [exact Ichain|].
    intros a Ha. simpl. rewrite Ilast, Ha in Hcd. simpl in Hcd.
    apply Z.geb_le in Hcd. exact Hcd.
  - apply Forall_app. split; [exact Iall|].
    constructor; [|constructor].
    unfold event_ok; simpl. repeat split; try assumption; try reflexivity.
Qed.

Lemma init_log_inv (params : TradeParams) (idx : list Timestamp)
    (o1 c1 o2 c2 : Series) (s1 s2 : Z) (cash0 : Q) :
  log_inv params idx o1 c1 o2 c2 (init_state s1 s2 cash0).
Proof.
  unfold log_inv; simpl. repeat split. constructor.
Qed.

(** The ghost log of a finished loop agrees with the counters and satisfies
    the cooldown chain and the per-switch facts. *)
Lemma active_loop_log_inv (data : DataFrame) (s1 s2 : Z) (cash0 : Q)
    (params : TradeParams) (st : State) :
  active_loop data s1 s2 cash0 params = Ok st ->
  log_inv params (index data) (col1d data Open_1) (col1d data Close_1)
          (col1d data Open_2) (col1d data Close_2) st.
Proof.
  unfold active_loop. intro H.
  eapply (for_each_inv _ (log_inv params _ _ _ _ _)); [| |exact H].
  - intros s a s' Hin Hs Hb. eapply step_log_inv; eassumption.
  - apply init_log_inv.
Qed.

(** ** The run and its loop *)

Lemma backtest_switching_loop (data : DataFrame) (s1 s2 : Z) (cash0 : Q)
    (params : TradeParams) (res : Results) (stats : Stats) :
  backtest_switching data s1 s2 cash0 params = Ok (res, stats) ->
  exists st,
    active_loop data s1 s2 cash0 params = Ok st /\
    res = mkResults (index data) (eq_active st)
                    (passive_equity data s1 s2 cash0) (pos_flag st) /\
    stats = mkStats (switches st) (turnover_notional st)
                    (hit_rate (switch_hits st)).
Proof.
  unfold backtest_switching. intro H.
  apply bind_ok_inv in H. destruct H as [st [E H]].
  inversion H; subst. now exists st.
Qed.

Lemma crossing_abs (held1 : bool) (edge hy : Q) :
  (if held1 then hy < edge else edge < - hy) -> hy < Qabs edge.
Proof.
  intro H. destruct held1.
  - eapply Qlt_le_trans; [exact H|apply Qle_Qabs].
  - assert (A := Qle_Qabs (- edge)). rewrite Qabs_opp in A. lra.
Qed.

(** C4: in every finished run the logged switches are the counted ones, and
    between two consecutive switches at least [cooldown_days] calendar days
    lie, measured as [(date2 - date1).days]. *)
Theorem cooldown_between_switches (data : DataFrame) (s1 s2 : Z) (cash0 : Q)
    (params : TradeParams) (res : Results) (stats : Stats) :
  backtest_switching data s1 s2 cash0 params = Ok (res, stats) ->
  exists st,
    active_loop data s1 s2 cash0 params = Ok st /\
    Switches stats = Z.of_nat (List.length (switch_log st)) /\
    (forall (i : nat) (last : option Timestamp) (dt : Timestamp)
            (h t : bool) (e : Q),
       decide_switch i (cooldown_ok last dt (cooldown_days params)) h e
                     (hysteresis_bps params) = (true, t) ->
       last = None \/
       exists l, last = Some l /\ (cooldown_days params <= td_days dt l)%Z) /\
    forall k e1 e2,
      nth_error (switch_log st) k = Some e1 ->
      nth_error (switch_log st) (Datatypes.S k) = Some e2 ->
      (cooldown_days params <= td_days (ev_date e2) (ev_date e1))%Z.
Proof.
  intro H. apply backtest_switching_loop in H.
  destruct H as (st & Hloop & _ & ->).
  exists st. split; [exact Hloop|].
  apply active_loop_log_inv in Hloop.
  destruct Hloop as (Icount & _ & _ & Ichain & _).
  split; [exact Icount|].
  split; [intros i last dt h t e D; exact (cooldown_ok_fires _ _ _ _ _ _ _ _ D)|].
  intros k e1 e2 H1 H2.
  exact (chain_nth _ _ Ichain k e1 e2 H1 H2).
Qed.

Lemma cooldown_between_switches_witness :
  exists res stats,
    backtest_switching sample_table 16 0 0 sample_params = Ok (res, stats) /\
    exists st,
      active_loop sample_table 16 0 0 sample_params = Ok st /\
      Switches stats = Z.of_nat (List.length (switch_log st)) /\
      (forall (i : nat) (last : option Timestamp) (dt : Timestamp)
              (h t : bool) (e : Q),
         decide_switch i (cooldown_ok last dt (cooldown_days sample_params)) h e
                       (hysteresis_bps sample_params) = (true, t) ->
         last = None \/
         exists l,
           last = Some l /\ (cooldown_days sample_params <= td_days dt l)%Z) /\
      forall k e1 e2,
        nth_error (switch_log st) k = Some e1 ->
        nth_error (switch_log st) (Datatypes.S k) = Some e2 ->
        (cooldown_days sample_params <= td_days (ev_date e2) (ev_date e1))%Z.
Proof.
  eexists. eexists. split.
  - vm_compute. reflexivity.
  - eapply (cooldown_between_switches sample_table 16 0 0 sample_params).
    vm_compute. reflexivity.
Defined.

(** C5: every logged switch happened with the edge of its date strictly
    beyond the threshold on the side of the asset held: above
    [hysteresis_bps] when asset 1 was held, below [-hysteresis_bps] when
    asset 2 was held; so the edge differs from that threshold and
    [|edge_bps| > hysteresis_bps]. *)
Theorem hysteresis_at_switches (data : DataFrame) (s1 s2 : Z) (cash0 : Q)
    (params : TradeParams) (res : Results) (stats : Stats) :
  backtest_switching data s1 s2 cash0 params = Ok (res, stats) ->
  exists st,
    active_loop data s1 s2 cash0 params = Ok st /\
    Switches stats = Z.of_nat (List.length (switch_log st)) /\
    (forall (i : nat) (cd h : bool) (e : Q),
       (if h then e == hysteresis_bps params else e == - hysteresis_bps params) ->
       fst (decide_switch i cd h e (hysteresis_bps params)) = false) /\
    forall ev,
      In ev (switch_log st) ->
      edge_at (index data) (col1d data Close_1) (col1d data Close_2)
              (ev_i ev) (ev_open1 ev) (ev_open2 ev) = Ok (ev_edge_bps ev) /\
      (ev_held1 ev = true ->
         hysteresis_bps params < ev_edge_bps ev /\
         ~ ev_edge_bps ev == hysteresis_bps params) /\
      (ev_held1 ev = false ->
         ev_edge_bps ev < - hysteresis_bps params /\
         ~ ev_edge_bps ev == - hysteresis_bps params) /\
      hysteresis_bps params < Qabs (ev_edge_bps ev).
Proof.
  intro H. apply backtest_switching_loop in H.
  destruct H as (st & Hloop & _ & ->).
  exists st. split; [exact Hloop|].
  apply active_loop_log_inv in Hloop.
  destruct Hloop as (Icount & _ & _ & _ & Iall).
  split; [exact Icount|].
  split; [intros i cd h e; apply decide_switch_at_threshold|].
  intros ev Hin.
  rewrite Forall_forall in Iall. specialize (Iall ev Hin).
  destruct Iall as (_ & _ & Hedge & Hcross & _).
  split; [exact Hedge|].
  split; [|split].
  - intro Hh. rewrite Hh in Hcross. split; [exact Hcross|].
    intro E. rewrite E in Hcross. exact (Qlt_irrefl _ Hcross).
  - intro Hh. rewrite Hh in Hcross. split; [exact Hcross|].
    intro E. rewrite E in Hcross. exact (Qlt_irrefl _ Hcross).
  - exact (crossing_abs _ _ _ Hcross).
Qed.

Lemma hysteresis_at_switches_witness :
  exists res stats,
    backtest_switching sample_table 16 0 0 sample_params = Ok (res, stats) /\
    exists st,
      active_loop sample_table 16 0 0 sample_params = Ok st /\
      Switches stats = Z.of_nat (List.length (switch_log st)) /\
      (forall (i : nat) (cd h : bool) (e : Q),
         (if h then e == hysteresis_bps sample_params
          else e == - hysteresis_bps sample_params) ->
         fst (decide_switch i cd h e (hysteresis_bps sample_params)) = false) /\
      forall ev,
        In ev (switch_log st) ->
        edge_at (index sample_table) (col1d sample_table Close_1)
                (col1d sample_table Close_2)
                (ev_i ev) (ev_open1 ev) (ev_open2 ev) = Ok (ev_edge_bps ev) /\
        (ev_held1 ev = true ->
           hysteresis_bps sample_params < ev_edge_bps ev /\
           ~ ev_edge_bps ev == hysteresis_bps sample_params) /\
        (ev_held1 ev = false ->
           ev_edge_bps ev < - hysteresis_bps sample_params /\
           ~ ev_edge_bps ev == - hysteresis_bps sample_params) /\
        hysteresis_bps sample_params < Qabs (ev_edge_bps ev).
Proof.
  eexists. eexists. split.
  - vm_compute. reflexivity.
  - eapply (hysteresis_at_switches sample_table 16 0 0 sample_params).
    vm_compute. reflexivity.
Defined.

(** ** Cash after the buy leg *)

Lemma sget_col1d_in (data : DataFrame) (col : Row -> Q) (dt : Timestamp) (v : Q) :
  sget (col1d data col) dt = Ok v ->
  exists r, In r data /\ date r = dt /\ first_row data dt = Some r /\ v = col r.
Proof.
  rewrite sget_col1d. unfold first_row.
  destruct (find (fun r => Z.eqb (date r) dt) data) as [r|] eqn:F; [|discriminate].
  intro H. inversion H; subst. apply find_some in F. destruct F as [Hin Hd].
  apply Z.eqb_eq in Hd. exists r. auto.
Qed.

Lemma exec_price_buy_pos (open_px slip : Q) :
  0 < open_px -> 0 <= slip -> 0 < exec_price open_px slip "buy".
Proof.
  intros Ho Hs.
  change (exec_price open_px slip "buy") with (open_px * (1 + slip / bps)).
  assert (Hd : 0 <= slip / bps).
  { unfold bps. apply Qle_shift_div_l; [reflexivity|]. lra. }
  assert (H1 : 0 < 1 + slip / bps) by lra.
  setoid_replace 0 with (open_px * 0) by ring.
  apply Qmult_lt_l; assumption.
Qed.

Lemma positive_opens_in (data : DataFrame) (r : Row) :
  positive_opens data = true -> In r data -> 0 < Open_1 r /\ 0 < Open_2 r.
Proof.
  unfold positive_opens. rewrite forallb_forall. intros H Hin.
  specialize (H r Hin). apply andb_true_iff in H. destruct H as [H1 H2].
  apply Qltb_lt in H1. apply Qltb_lt in H2. auto.
Qed.

Lemma fee_zero (notional f : Q) : f == 0 -> fee_on_notional notional f == 0.
Proof.
  intro Hf. unfold fee_on_notional. rewrite Hf.
  unfold Qdiv. rewrite Qmult_0_l. apply Qmult_0_r.
Qed.

(** C1 as stated fails: with a fee of 625 bps the first switch of
    [sample_table] buys 10 shares at 24 with the 240 of cash at hand, and the
    buy-leg fee of 15 then takes the cash to -15. *)
Lemma fee_drives_cash_negative :
  ~ buy_leg_keeps_cash_nonneg sample_table 16 0 0 fee_params.
Proof.
  intro H.
  assert (E : exists st ev,
             active_loop sample_table 16 0 0 fee_params = Ok st /\
             In ev (switch_log st) /\ ev_cash_after_buy ev < 0).
  { eexists. eexists. split; [vm_compute; reflexivity|].
    split; [left; reflexivity|]. vm_compute. reflexivity. }
  destruct E as (st & ev & Hloop & Hin & Hneg).
  specialize (H st ev Hloop Hin).
  exact (Qlt_not_le _ _ Hneg H).
Qed.

(** C1, amended: on a table of positive opens and with [slippage_bps >= 0],
    every switch buys [floor(cash / exec_price(open_target, slippage, buy))]
    shares, the cash right after the purchase notional is subtracted is
    [>= 0], and the buy-leg fee is subtracted after that; with [fee_bps = 0]
    the cash after the whole buy leg is [>= 0]. *)
Theorem buy_leg_cash (data : DataFrame) (s1 s2 : Z) (cash0 : Q)
    (params : TradeParams) (res : Results) (stats : Stats) :
  backtest_switching data s1 s2 cash0 params = Ok (res, stats) ->
  positive_opens data = true ->
  0 <= slippage_bps params ->
  exists st,
    active_loop data s1 s2 cash0 params = Ok st /\
    Switches stats = Z.of_nat (List.length (switch_log st)) /\
    forall ev,
      In ev (switch_log st) ->
      let notional := inject_Z (ev_new_shares ev) * ev_buy_px ev in
      ev_buy_px ev =
        exec_price (if ev_held1 ev then ev_open2 ev else ev_open1 ev)
                   (slippage_bps params) "buy" /\
      ev_new_shares ev = Qfloor (ev_cash_before_buy ev / ev_buy_px ev) /\
      ev_cash_after_notional ev = ev_cash_before_buy ev - notional /\
      0 <= ev_cash_after_notional ev /\
      ev_cash_after_buy ev =
        ev_cash_after_notional ev - fee_on_notional notional (fee_bps params) /\
      (fee_bps params == 0 -> 0 <= ev_cash_after_buy ev).
Proof.
  intros H Hopens Hslip. apply backtest_switching_loop in H.
  destruct H as (st & Hloop & _ & ->).
  exists st. split; [exact Hloop|].
  apply active_loop_log_inv in Hloop.
  destruct Hloop as (Icount & _ & _ & _ & Iall).
  split; [exact Icount|].
  intros ev Hin. cbv zeta.
  rewrite Forall_forall in Iall. specialize (Iall ev Hin).
  destruct Iall as (_ & _ & _ & _ & Ho1 & _ & Ho2 & _ & Hpx & _ & Hn & Hc1 & Hc2 & _).
  assert (Hpos : 0 < ev_buy_px ev).
  { rewrite Hpx. apply exec_price_buy_pos; [|exact Hslip].
    apply sget_col1d_in in Ho1. destruct Ho1 as (r1 & In1 & _ & _ & ->).
    apply sget_col1d_in in Ho2. destruct Ho2 as (r2 & In2 & _ & _ & ->).
    destruct (positive_opens_in _ _ Hopens In1) as [P1 _].
    destruct (positive_opens_in _ _ Hopens In2) as [_ P2].
    now destruct (ev_held1 ev). }
  assert (Hres : 0 <= ev_cash_after_notional ev).
  { rewrite Hc1, Hn.
    assert (F := floor_notional_le (ev_cash_before_buy ev) (ev_buy_px ev) Hpos).
    lra. }
  repeat split; try assumption.
  intro Hfee. rewrite Hc2.
  assert (Z0 := fee_zero (inject_Z (ev_new_shares ev) * ev_buy_px ev) _ Hfee).
  lra.
Qed.

Lemma buy_leg_cash_witness :
  exists res stats,
    backtest_switching sample_table 16 0 0 sample_params = Ok (res, stats) /\
    positive_opens sample_table = true /\
    0 <= slippage_bps sample_params /\
    exists st,
      active_loop sample_table 16 0 0 sample_params = Ok st /\
      forall ev, In ev (switch_log st) -> 0 <= ev_cash_after_buy ev.
Proof.
  eexists. eexists. split; [vm_compute; reflexivity|].
  split; [reflexivity|]. split; [discriminate|].
  edestruct (buy_leg_cash sample_table 16 0 0 sample_params) as (st & Hloop & _ & Hall).
  - vm_compute. reflexivity.
  - reflexivity.
  - discriminate.
  - exists st. split; [exact Hloop|].
    intros ev Hin. apply (Hall ev Hin). reflexivity.
Defined.

(** ** Hit rate *)

Lemma hit_rate_none (hits : list bool) : hit_rate hits = None <-> hits = [].
Proof.
  destruct hits; simpl; split; intro H; try reflexivity; discriminate.
Qed.

Lemma hit_rate_some (hits : list bool) :
  hits <> [] ->
  hit_rate hits =
  Some (inject_Z (Z.of_nat (count_true hits))
        / inject_Z (Z.of_nat (List.length hits))).
Proof.
  destruct hits; [congruence|reflexivity].
Qed.



(** ** The first date *)

Lemma step_first (params : TradeParams) (r : Row) (data : DataFrame) (st : State) :
  step params (index (r :: data))
       (col1d (r :: data) Open_1) (col1d (r :: data) Close_1)
       (col1d (r :: data) Open_2) (col1d (r :: data) Close_2)
       st (0%nat, date r)
  = Ok (mark_to_close (Close_1 r) (Close_2 r) st).
Proof.
  unfold step, col1d. simpl. rewrite Z.eqb_refl. simpl. reflexivity.
Qed.

Lemma step_pos_flag (params : TradeParams) (idx : list Timestamp)
    (o1 c1 o2 c2 : Series) (st st' : State) (it : nat * Timestamp) :
  step params idx o1 c1 o2 c2 st it = Ok st' ->
  exists f, pos_flag st' = pos_flag st ++ [f].
Proof.
  destruct it as [i dt]. intro Hstep. apply step_inv in Hstep.
  destruct Hstep as (open1 & close1 & open2 & close2 & edge & _ & _ & _ & _ & _ & Hd).
  cbv zeta in Hd.
  destruct Hd as [[_ ->]|(t & st2 & D & Hbuy & ->)].
  - eexists. reflexivity.
  - apply decide_switch_fires in D. destruct D as (Hi & _).
    apply (buy_leg_inv _ _ _ _ _ _ _ _ _ _ _ _ Hi) in Hbuy.
    cbv zeta in Hbuy. destruct Hbuy as (_ & _ & ->).
    destruct (sell_leg_bookkeeping params open1 open2 st) as (_ & _ & _ & Epf & _).
    simpl. rewrite Epf. eexists. reflexivity.
Qed.

Lemma strictly_increasing_head (a : Timestamp) (l : list Timestamp) :
  strictly_increasing (a :: l) = true -> forall x, In x l -> (a < x)%Z.
Proof.
  revert a. induction l as [|b l IH]; intros a H x Hin; [destruct Hin|].
  simpl in H. apply andb_true_iff in H. destruct H as [Hab Hrest].
  apply Z.ltb_lt in Hab.
  destruct Hin as [->|Hin]; [exact Hab|].
  specialize (IH b Hrest x Hin). lia.
Qed.

(** C7: on the first date the edge is zero and the iteration cannot switch,
    whatever the parameters: it only marks the initial holding to close.  So
    the first [PositionFlag] of every run is [+1] iff [shares1_init > 0], and
    every logged switch has a later position in the index (and, on strictly
    increasing dates, a later date). *)
Theorem first_date_never_switches (r : Row) (data : DataFrame) (s1 s2 : Z)
    (cash0 : Q) (params : TradeParams) :
  let table := r :: data in
  let idx := index table in
  let flag := if Z.ltb 0 s1 then 1%Z else (-1)%Z in
  edge_at idx (col1d table Close_1) (col1d table Close_2) 0
          (Open_1 r) (Open_2 r) = Ok 0 /\
  (forall cd h e, decide_switch 0 cd h e (hysteresis_bps params) = (false, false)) /\
  (exists st1,
     step params idx (col1d table Open_1) (col1d table Close_1)
          (col1d table Open_2) (col1d table Close_2)
          (init_state s1 s2 cash0) (0%nat, date r) = Ok st1 /\
     switches st1 = 0%Z /\ switch_log st1 = [] /\
     last_switch_date st1 = None /\ pos_flag st1 = [flag] /\
     eq_active st1 =
       [inject_Z s1 * Close_1 r + inject_Z s2 * Close_2 r + cash0]) /\
  (forall res stats,
     backtest_switching table s1 s2 cash0 params = Ok (res, stats) ->
     hd_error (PositionFlag res) = Some flag /\
     exists st,
       active_loop table s1 s2 cash0 params = Ok st /\
       Switches stats = Z.of_nat (List.length (switch_log st)) /\
       forall ev,
         In ev (switch_log st) ->
         (0 < ev_i ev)%nat /\
         nth_error idx (ev_i ev) = Some (ev_date ev) /\
         (strictly_increasing idx = true -> (date r < ev_date ev)%Z)).
Proof.
  cbv zeta.
  split; [reflexivity|]. split; [reflexivity|]. split.
  - eexists. split; [apply step_first|]. simpl. repeat split.
  - intros res stats H. apply backtest_switching_loop in H.
    destruct H as (st & Hloop & -> & ->). simpl.
    split.
    + unfold active_loop in Hloop.
      change (enumerate (index (r :: data)))
        with ((0%nat, date r)
              :: combine (seq 1 (List.length (index data))) (index data)) in Hloop.
      change (for_each ?b ((0%nat, date r) :: ?l) ?s)
        with (bind (b s (0%nat, date r)) (fun s' => for_each b l s')) in Hloop.
      rewrite step_first in Hloop. simpl bind in Hloop.
      apply (for_each_inv _
               (fun s => exists l,
                    pos_flag s = (if Z.ltb 0 s1 then 1%Z else (-1)%Z) :: l))
        in Hloop.
      * destruct Hloop as [l ->]. reflexivity.
      * intros s a s' _ [l Hl] Hs. apply step_pos_flag in Hs.
        destruct Hs as [f ->]. rewrite Hl. eexists. reflexivity.
      * eexists. reflexivity.
    + exists st. split; [exact Hloop|].
      apply active_loop_log_inv in Hloop.
      destruct Hloop as (Icount & _ & _ & _ & Iall).
      split; [exact Icount|].
      intros ev Hin. rewrite Forall_forall in Iall.
      destruct (Iall ev Hin) as (Hi & Hnth & _).
      split; [exact Hi|]. split; [exact Hnth|].
      intro Hsorted.
      apply (strictly_increasing_head _ _ Hsorted).
      destruct (ev_i ev) as [|k]; [lia|].
      simpl in Hnth. apply nth_error_In in Hnth. exact Hnth.
Qed.

Lemma first_date_never_switches_witness :
  exists res stats,
    backtest_switching sample_table 16 0 0 sample_params = Ok (res, stats) /\
    hd_error (PositionFlag res) = Some 1%Z.
Proof.
  eexists. eexists. split; [vm_compute; reflexivity|].
  destruct (first_date_never_switches
              (mkRow (day 0) 16 16 16 16)
              [mkRow (day 1) 16 16 24 24; mkRow (day 8) 20 20 24 20]
              16 0 0 sample_params) as (_ & _ & _ & Hrun).
  cbv zeta in Hrun.
  edestruct Hrun as [Hhd _]; [vm_compute; reflexivity|].
  exact Hhd.
Defined.

(** ** The one-shot signal against the engine's decision *)

Lemma Qle_bool_opp (x y : Q) : Qle_bool (- x) y = Qle_bool (- y) x.
Proof.
  destruct (Qle_bool (- x) y) eqn:A, (Qle_bool (- y) x) eqn:B; try reflexivity.
  - apply Qle_bool_iff in A.
    assert (C : - y <= x) by lra.
    apply Qle_bool_iff in C. congruence.
  - apply Qle_bool_iff in B.
    assert (C : - x <= y) by lra.
    apply Qle_bool_iff in C. congruence.
Qed.

Lemma Qgtb_opp (e d : Q) : Qgtb (- e) d = Qltb e (- d).
Proof.
  unfold Qgtb, Qltb. f_equal. symmetry. apply Qle_bool_opp.
Qed.

(** C8: for a date that is not the first and a cooldown that permits, the
    action [signal2.py] announces from the two previous closes and the two
    opens equals the engine's decision (edge, then hysteresis test) for a
    holder of the same asset with the same threshold; both raise on a zero
    previous close. *)
Theorem signal2_matches_engine (oA cA oB cB delta : Q) (holding : string)
    (i : nat) (last : option Timestamp) (dt : Timestamp) (cooldown : Z) :
  (0 < i)%nat ->
  cooldown_ok last dt cooldown = true ->
  let holding1 := String.eqb (upper holding) "A" in
  signal2_action oA cA oB cB holding delta =
  (edge_bps <- overnight_edge oA cA oB cB ;;
   Ok (engine_action holding1
         (decide_switch i (cooldown_ok last dt cooldown) holding1 edge_bps delta))).
Proof.
  intros Hi Hcd. cbv zeta. rewrite Hcd.
  unfold signal2_action, overnight_edge, decide_switch.
  apply Nat.ltb_lt in Hi. rewrite Hi.
  destruct (truediv (oA - cA) cA) as [rA|e]; simpl; [|reflexivity].
  destruct (truediv (oB - cB) cB) as [rB|e]; simpl; [|reflexivity].
  destruct (String.eqb (upper holding) "A"); simpl.
  - now destruct (Qgtb ((rB - rA) * bps) delta).
  - rewrite Qgtb_opp. now destruct (Qltb ((rB - rA) * bps) (- delta)).
Qed.

Lemma signal2_matches_engine_witness :
  (0 < 1)%nat /\
  cooldown_ok (Some (day 0)) (day 7) 7 = true /\
  signal2_action 16 16 24 16 "B" 7 =
  (edge_bps <- overnight_edge 16 16 24 16 ;;
   Ok (engine_action false
         (decide_switch 1 (cooldown_ok (Some (day 0)) (day 7) 7) false edge_bps 7))).
Proof.
  split; [lia|]. split; [reflexivity|].
  apply (signal2_matches_engine 16 16 24 16 7 "B" 1 (Some (day 0)) (day 7) 7).
  - lia.
  - reflexivity.
Defined.

(** ** The aligner on an empty table *)

Lemma join_inner_nil_r (left : list RawRow) : join_inner left [] = [].
Proof.
  unfold join_inner. induction left as [|l left IH]; [reflexivity|exact IH].
Qed.

Lemma align_two_of_empty_join (left right : list RawRow) :
  join_inner left right = [] -> align_two left right = [].
Proof.
  intro H. unfold align_two. rewrite H. reflexivity.
Qed.

(** C3 as stated fails: with an empty left table [align_two] returns the
    empty aligned table, and the backtest runs on it. *)
Lemma align_two_returns_empty_table :
  align_two [] [mkRawRow (day 0) (Some 16) (Some 16)] = [] /\
  backtest_switching
    (to_frame (align_two [] [mkRawRow (day 0) (Some 16) (Some 16)]))
    16 0 0 sample_params
  = Ok (mkResults [] [] [] [], mkStats 0 0 None).
Proof.
  split; reflexivity.
Qed.

(** C3, amended: when one of the two input tables is empty, [align_two]
    raises nothing and returns the empty aligned table, on which the backtest
    returns empty results with no switch; the empty table is refused
    upstream, by [fetch_data], with a [ValueError]. *)
Theorem align_two_empty_input (left right : list RawRow) :
  left = [] \/ right = [] ->
  align_two left right = [] /\
  (forall s1 s2 cash0 params,
     backtest_switching (to_frame (align_two left right)) s1 s2 cash0 params
     = Ok (mkResults [] [] [] [], mkStats 0 0 None)) /\
  (fetch_data left = Raise ValueError \/ fetch_data right = Raise ValueError).
Proof.
  intro H.
  assert (E : align_two left right = []).
  { apply align_two_of_empty_join.
    destruct H as [-> | ->]; [reflexivity|apply join_inner_nil_r]. }
  split; [exact E|]. split.
  - intros. rewrite E. reflexivity.
  - destruct H as [-> | ->]; [left|right]; reflexivity.
Qed.

Lemma align_two_empty_input_witness :
  ([mkRawRow (day 0) (Some 16) (Some 16)] = [] \/ @nil RawRow = []) /\
  align_two [mkRawRow (day 0) (Some 16) (Some 16)] [] = [].
Proof.
  split; [right; reflexivity|].
  apply (align_two_empty_input [mkRawRow (day 0) (Some 16) (Some 16)] []).
  right. reflexivity.
Defined.

(** ** What the loop can raise *)

Lemma bind_raise_inv {A B : Type} (m : result A) (k : A -> result B) (e : exn) :
  bind m k = Raise e -> m = Raise e \/ exists a, m = Ok a /\ k a = Raise e.
Proof.
  destruct m as [a|e']; simpl; intro H; [right; now exists a|left; congruence].
Qed.

Lemma truediv_raises (x y : Q) (e : exn) :
  truediv x y = Raise e -> e = ZeroDivisionError.
Proof.
  unfold truediv. destruct (Qeq_bool y 0); intro H; inversion H; reflexivity.
Qed.

Lemma overnight_edge_raises (open1 pc1 open2 pc2 : Q) (e : exn) :
  overnight_edge open1 pc1 open2 pc2 = Raise e -> e = ZeroDivisionError.
Proof.
  unfold overnight_edge. intro H.
  apply bind_raise_inv in H. destruct H as [H|[r1 [_ H]]];
    [exact (truediv_raises _ _ _ H)|].
  apply bind_raise_inv in H. destruct H as [H|[r2 [_ H]]];
    [exact (truediv_raises _ _ _ H)|discriminate].
Qed.

Lemma overnight_edge_zero (open1 pc1 open2 pc2 : Q) :
  pc1 == 0 \/ pc2 == 0 ->
  overnight_edge open1 pc1 open2 pc2 = Raise ZeroDivisionError.
Proof.
  intro H. unfold overnight_edge.
  destruct (truediv (open1 - pc1) pc1) as [r1|e] eqn:E1; simpl.
  - destruct H as [H|H].
    + rewrite (truediv_zero _ _ H) in E1. discriminate.
    + now rewrite (truediv_zero _ _ H).
  - f_equal. exact (truediv_raises _ _ _ E1).
Qed.

Lemma buy_leg_raises (params : TradeParams) (i : nat) (dt : Timestamp)
    (t held : bool) (edge open1 close1 open2 close2 : Q) (s : State) (e : exn) :
  buy_leg params i dt t held edge open1 close1 open2 close2 s = Raise e ->
  e = ZeroDivisionError.
Proof.
  unfold buy_leg, int_floordiv. intro H.
  destruct (Qeq_bool (exec_price (if t then open2 else open1) _ "buy") 0);
    [inversion H; reflexivity|].
  simpl in H.
  apply bind_raise_inv in H. destruct H as [H|[hit [_ H]]]; [|discriminate].
  destruct (t && Nat.ltb 0 i).
  - apply bind_raise_inv in H. destruct H as [H|[q [_ H]]];
      [exact (truediv_raises _ _ _ H)|discriminate].
  - destruct (negb t && Nat.ltb 0 i); [|discriminate].
    apply bind_raise_inv in H. destruct H as [H|[q [_ H]]];
      [exact (truediv_raises _ _ _ H)|discriminate].
Qed.

Lemma sget_col1d_ok (data : DataFrame) (dt : Timestamp) :
  In dt (index data) ->
  exists r,
    In r data /\ date r = dt /\ first_row data dt = Some r /\
    forall col, sget (col1d data col) dt = Ok (col r).
Proof.
  intro Hin. destruct (first_row_some data dt Hin) as (r & F & I & D).
  exists r. repeat split; try assumption.
  intro col. rewrite sget_col1d, F. reflexivity.
Qed.

Lemma enumerate_prev {A : Type} (l : list A) (k : nat) (a : A) :
  In (Datatypes.S k, a) (enumerate l) -> exists p, nth_error l k = Some p.
Proof.
  intro Hin. apply in_enumerate in Hin.
  assert (Hlt : (Datatypes.S k < List.length l)%nat)
    by (apply nth_error_Some; congruence).
  destruct (nth_error l k) as [p|] eqn:E; [now exists p|].
  apply nth_error_None in E. lia.
Qed.

Lemma edge_at_raises (data : DataFrame) (i : nat) (dt : Timestamp)
    (open1 open2 : Q) (e : exn) :
  In (i, dt) (enumerate (index data)) ->
  edge_at (index data) (col1d data Close_1) (col1d data Close_2) i open1 open2
  = Raise e ->
  e = ZeroDivisionError.
Proof.
  intros Hin H. unfold edge_at in H.
  destruct i as [|k]; [discriminate|]. simpl in H.
  rewrite Nat.sub_0_r in H.
  destruct (enumerate_prev _ _ _ Hin) as [p Hp].
  unfold iloc in H. rewrite Hp in H. simpl in H.
  apply nth_error_In in Hp.
  destruct (sget_col1d_ok data p Hp) as (r & _ & _ & _ & Hcol).
  rewrite !Hcol in H. simpl in H.
  exact (overnight_edge_raises _ _ _ _ _ H).
Qed.

Lemma step_raises (data : DataFrame) (params : TradeParams) (st : State)
    (it : nat * Timestamp) (e : exn) :
  In it (enumerate (index data)) ->
  step params (index data) (col1d data Open_1) (col1d data Close_1)
       (col1d data Open_2) (col1d data Close_2) st it = Raise e ->
  e = ZeroDivisionError.
Proof.
  destruct it as [i dt]. intros Hin H.
  assert (Hdt := in_enumerate _ _ _ Hin). apply nth_error_In in Hdt.
  destruct (sget_col1d_ok data dt Hdt) as (r & _ & _ & _ & Hcol).
  unfold step in H. rewrite !Hcol in H. simpl in H.
  apply bind_raise_inv in H. destruct H as [H|[edge [_ H]]];
    [exact (edge_at_raises _ _ _ _ _ _ Hin H)|].
  destruct (decide_switch i _ (holding1 st) edge (hysteresis_bps params))
    as [do_switch t].
  apply bind_raise_inv in H. destruct H as [H|[s' [_ H]]]; [|discriminate].
  destruct do_switch; [|discriminate].
  exact (buy_leg_raises _ _ _ _ _ _ _ _ _ _ _ _ H).
Qed.

Lemma first_row_unique (data : DataFrame) (r : Row) :
  is_unique (index data) = true -> In r data -> first_row data (date r) = Some r.
Proof.
  unfold first_row, index. induction data as [|a data IH]; intros Hu Hin;
    [destruct Hin|].
  simpl in Hu. apply andb_true_iff in Hu. destruct Hu as [Hn Hu].
  simpl. destruct Hin as [->|Hin]; [now rewrite Z.eqb_refl|].
  destruct (Z.eqb (date a) (date r)) eqn:E; [|exact (IH Hu Hin)].
  apply negb_true_iff in Hn.
  assert (X : existsb (Z.eqb (date a)) (map date data) = true).
  { apply existsb_exists. exists (date r). split; [|exact E].
    apply in_map. exact Hin. }
  congruence.
Qed.

Lemma step_zero_prev_close (data : DataFrame) (params : TradeParams)
    (k : nat) (r : Row) (dt : Timestamp) (st : State) :
  is_unique (index data) = true ->
  nth_error data k = Some r ->
  In (Datatypes.S k, dt) (enumerate (index data)) ->
  Close_1 r == 0 \/ Close_2 r == 0 ->
  step params (index data) (col1d data Open_1) (col1d data Close_1)
       (col1d data Open_2) (col1d data Close_2) st (Datatypes.S k, dt)
  = Raise ZeroDivisionError.
Proof.
  intros Hu Hr Hin Hz.
  assert (Hdt := in_enumerate _ _ _ Hin). apply nth_error_In in Hdt.
  destruct (sget_col1d_ok data dt Hdt) as (r' & _ & _ & _ & Hcol).
  unfold step. rewrite !Hcol. simpl.
  assert (E : edge_at (index data) (col1d data Close_1) (col1d data Close_2)
                      (Datatypes.S k) (Open_1 r') (Open_2 r')
              = Raise ZeroDivisionError).
  { unfold edge_at. simpl. rewrite Nat.sub_0_r.
    unfold iloc, index. rewrite nth_error_map, Hr. simpl.
    rewrite !sget_col1d.
    rewrite (first_row_unique data r Hu (nth_error_In _ _ Hr)). simpl.
    apply overnight_edge_zero. exact Hz. }
  rewrite E. reflexivity.
Qed.

(** ** A bad previous close *)

(** C2 as stated fails: a first close of -16 for asset 1 is a non-positive
    previous close on the second date, and the run returns results. *)
Lemma negative_prev_close_accepted :
  ~ rejects_bad_prev_close negative_close_table 16 0 0 sample_params.
Proof.
  intro H.
  destruct H as [e He].
  - exists 0%nat, (mkRow (day 0) 16 (-16) 16 16).
    split; [reflexivity|]. split; [simpl; lia|]. left. discriminate.
  - vm_compute in He. discriminate.
Qed.

(** C2, amended: on a table of unique dates, a previous close equal to zero
    at a non-first date, for either asset, makes the run raise
    [ZeroDivisionError] and return nothing.  Any other previous close, a
    negative one too, gives an overnight-return edge that is computed. *)
Theorem zero_prev_close_raises (data : DataFrame) (s1 s2 : Z) (cash0 : Q)
    (params : TradeParams) (k : nat) (r : Row) :
  is_unique (index data) = true ->
  nth_error data k = Some r ->
  (Datatypes.S k < List.length data)%nat ->
  Close_1 r == 0 \/ Close_2 r == 0 ->
  backtest_switching data s1 s2 cash0 params = Raise ZeroDivisionError /\
  (forall open1 pc1 open2 pc2,
     ~ pc1 == 0 -> ~ pc2 == 0 ->
     overnight_edge open1 pc1 open2 pc2
     = Ok (((open2 - pc2) / pc2 - (open1 - pc1) / pc1) * bps)).
Proof.
  intros Hu Hr Hlt Hz. split.
  - unfold backtest_switching.
    assert (E : active_loop data s1 s2 cash0 params = Raise ZeroDivisionError).
    { unfold active_loop. apply for_each_raises.
      - intros s a e' Hin He. exact (step_raises _ _ _ _ _ Hin He).
      - assert (Hlt' : (Datatypes.S k < List.length (index data))%nat)
          by (unfold index; now rewrite length_map).
        destruct (nth_error (index data) (Datatypes.S k)) as [dt|] eqn:Edt;
          [|apply nth_error_None in Edt; lia].
        apply nth_error_enumerate in Edt.
        exists (Datatypes.S k, dt). split; [exact Edt|].
        intro s. now apply (step_zero_prev_close data params k r dt s). }
    rewrite E. reflexivity.
  - intros open1 pc1 open2 pc2 H1 H2. unfold overnight_edge.
    rewrite (truediv_ok _ _ H1), (truediv_ok _ _ H2). reflexivity.
Qed.

Lemma zero_prev_close_raises_witness :
  is_unique (index zero_close_table) = true /\
  nth_error zero_close_table 0 = Some (mkRow (day 0) 16 16 16 0) /\
  (1 < List.length zero_close_table)%nat /\
  (Close_1 (mkRow (day 0) 16 16 16 0) == 0
   \/ Close_2 (mkRow (day 0) 16 16 16 0) == 0) /\
  backtest_switching zero_close_table 16 0 0 sample_params
  = Raise ZeroDivisionError.
Proof.
  split; [reflexivity|]. split; [reflexivity|]. split; [simpl; lia|].
  split; [right; reflexivity|].
  apply (zero_prev_close_raises zero_close_table 16 0 0 sample_params 0
           (mkRow (day 0) 16 16 16 0)).
  - reflexivity.
  - reflexivity.
  - simpl. lia.
  - right. reflexivity.
Defined.

(** ** The passive baseline *)

Lemma passive_series (data : DataFrame) (k1 k2 : Z) (x : Q) :
  series_shift
    (series_add (series_scale k1 (col1d data Close_1))
                (series_scale k2 (col1d data Close_2)))
    x
  = col1d data (fun r => inject_Z k1 * Close_1 r + inject_Z k2 * Close_2 r + x).
Proof.
  unfold series_shift, series_add, series_scale, col1d.
  induction data as [|r data IH]; [reflexivity|].
  simpl. f_equal. exact IH.
Qed.

Lemma sget_drop_duplicated (s : Series) (dt : Timestamp) :
  forall seen,
    existsb (Z.eqb dt) seen = false ->
    sget (drop_duplicated fst seen s) dt = sget s dt.
Proof.
  induction s as [|[d v] s IH]; intros seen Hseen; [reflexivity|].
  simpl. destruct (existsb (Z.eqb d) seen) eqn:Ed.
  - destruct (Z.eqb d dt) eqn:E; [|now apply IH].
    apply Z.eqb_eq in E. subst. congruence.
  - simpl. destruct (Z.eqb d dt) eqn:E; [reflexivity|].
    apply IH. simpl. rewrite Z.eqb_sym, E. exact Hseen.
Qed.

Lemma strictly_increasing_tail (a : Timestamp) (l : list Timestamp) :
  strictly_increasing (a :: l) = true -> strictly_increasing l = true.
Proof.
  destruct l as [|b l]; [reflexivity|].
  simpl. intro H. apply andb_true_iff in H. tauto.
Qed.

Lemma strictly_increasing_unique (l : list Timestamp) :
  strictly_increasing l = true -> is_unique l = true.
Proof.
  induction l as [|a l IH]; intro H; [reflexivity|].
  simpl. apply andb_true_iff. split.
  - apply negb_true_iff.
    destruct (existsb (Z.eqb a) l) eqn:E; [|reflexivity].
    apply existsb_exists in E. destruct E as [x [Hin Hx]].
    apply Z.eqb_eq in Hx. subst x.
    assert (L := strictly_increasing_head a l H a Hin). lia.
  - apply IH. exact (strictly_increasing_tail a l H).
Qed.

(** The closed form of the baseline: one value per row of a table of unique
    dates, from that row's closes and the initial holdings only. *)
Lemma passive_equity_closed_form (data : DataFrame) (s1 s2 : Z) (cash0 : Q) :
  is_unique (index data) = true ->
  passive_equity data s1 s2 cash0
  = map (fun r => Some (inject_Z s1 * Close_1 r + inject_Z s2 * Close_2 r + cash0))
        data.
Proof.
  intro Hu. unfold passive_equity. rewrite passive_series.
  set (col := fun r => inject_Z s1 * Close_1 r + inject_Z s2 * Close_2 r + cash0).
  unfold reindex, index. rewrite map_map.
  apply map_ext_in. intros r Hin.
  assert (E : sget (col1d data col) (date r) = Ok (col r)).
  { rewrite sget_col1d, (first_row_unique data r Hu Hin). reflexivity. }
  destruct (negb (is_unique (map fst (col1d data col)))).
  - rewrite sget_drop_duplicated by reflexivity. now rewrite E.
  - now rewrite E.
Qed.

(** ** A run that never switches *)

Lemma hold_all_state (rows : list Row) :
  forall st,
    let st' := hold_all rows st in
    switches st' = switches st /\
    switch_hits st' = switch_hits st /\
    turnover_notional st' = turnover_notional st /\
    eq_active st' =
      eq_active st
      ++ map (fun r => inject_Z (shares1 st) * Close_1 r
                       + inject_Z (shares2 st) * Close_2 r + cash st) rows /\
    pos_flag st' =
      pos_flag st ++ map (fun _ => if holding1 st then 1%Z else (-1)%Z) rows.
Proof.
  induction rows as [|r rows IH]; intro st; cbv zeta.
  - simpl. now rewrite !app_nil_r.
  - unfold hold_all. simpl fold_left.
    destruct (IH (mark_to_close (Close_1 r) (Close_2 r) st))
      as (E1 & E2 & E3 & E4 & E5).
    unfold hold_all in E1, E2, E3, E4, E5.
    rewrite E1, E2, E3, E4, E5. simpl.
    now rewrite <- !app_assoc.
Qed.

Lemma hold_loop (body : State -> nat * Timestamp -> result State)
    (rows : list Row) :
  forall k st,
    (forall j r s,
       nth_error rows j = Some r ->
       body s ((k + j)%nat, date r)
       = Ok (mark_to_close (Close_1 r) (Close_2 r) s)) ->
    for_each body (combine (seq k (List.length rows)) (map date rows)) st
    = Ok (hold_all rows st).
Proof.
  induction rows as [|r rows IH]; intros k st Hbody; [reflexivity|].
  simpl. rewrite <- (Nat.add_0_r k) at 1.
  rewrite (Hbody 0%nat r st eq_refl). simpl.
  apply IH. intros j r' s Hj.
  replace (Datatypes.S k + j)%nat with (k + Datatypes.S j)%nat by lia.
  now apply Hbody.
Qed.

Lemma valid_table_closes (data : DataFrame) (r : Row) :
  valid_table data = true -> In r data -> ~ Close_1 r == 0 /\ ~ Close_2 r == 0.
Proof.
  unfold valid_table. intros H Hin.
  apply andb_true_iff in H. destruct H as [_ H].
  rewrite forallb_forall in H. specialize (H r Hin).
  apply andb_true_iff in H. destruct H as [H1 H2].
  apply Qltb_lt in H1. apply Qltb_lt in H2.
  split; intro E; [rewrite E in H1|rewrite E in H2];
    exact (Qlt_irrefl 0 ltac:(assumption)).
Qed.

Lemma valid_table_unique (data : DataFrame) :
  valid_table data = true -> is_unique (index data) = true.
Proof.
  unfold valid_table. intro H. apply andb_true_iff in H.
  apply strictly_increasing_unique. tauto.
Qed.

Lemma edge_at_valid (data : DataFrame) (j : nat) (r : Row) :
  valid_table data = true ->
  nth_error data j = Some r ->
  exists e,
    edge_at (index data) (col1d data Close_1) (col1d data Close_2) j
            (Open_1 r) (Open_2 r) = Ok e.
Proof.
  intros Hv Hr. unfold edge_at.
  destruct j as [|k]; [now exists 0|]. simpl. rewrite Nat.sub_0_r.
  assert (Hlt : (Datatypes.S k < List.length data)%nat)
    by (apply nth_error_Some; congruence).
  destruct (nth_error data k) as [p|] eqn:Ep;
    [|apply nth_error_None in Ep; lia].
  unfold iloc, index. rewrite nth_error_map, Ep. simpl.
  assert (Hin := nth_error_In _ _ Ep).
  rewrite !sget_col1d, (first_row_unique data p (valid_table_unique _ Hv) Hin).
  simpl. destruct (valid_table_closes data p Hv Hin) as [H1 H2].
  unfold overnight_edge. rewrite (truediv_ok _ _ H1), (truediv_ok _ _ H2).
  simpl. eexists. reflexivity.
Qed.

Lemma step_holds (data : DataFrame) (params : TradeParams) (j : nat) (r : Row)
    (s : State) :
  valid_table data = true ->
  never_exceeds data (hysteresis_bps params) = true ->
  nth_error data j = Some r ->
  step params (index data) (col1d data Open_1) (col1d data Close_1)
       (col1d data Open_2) (col1d data Close_2) s (j, date r)
  = Ok (mark_to_close (Close_1 r) (Close_2 r) s).
Proof.
  intros Hv Hq Hr.
  assert (Hin := nth_error_In _ _ Hr).
  assert (Hu := valid_table_unique _ Hv).
  assert (Hcol : forall col, sget (col1d data col) (date r) = Ok (col r)).
  { intro col. rewrite sget_col1d, (first_row_unique data r Hu Hin). reflexivity. }
  destruct (edge_at_valid data j r Hv Hr) as [e He].
  assert (Habs : Qabs e <= hysteresis_bps params).
  { unfold never_exceeds in Hq. rewrite forallb_forall in Hq.
    specialize (Hq (Ok e)). apply Qle_bool_iff. apply Hq.
    unfold edge_series. apply in_map_iff. exists (j, date r). split.
    - simpl. rewrite !Hcol. simpl. exact He.
    - apply nth_error_enumerate. unfold index. now rewrite nth_error_map, Hr. }
  unfold step. rewrite !Hcol. simpl. rewrite He. simpl.
  rewrite (decide_switch_holds _ _ _ _ _ Habs). reflexivity.
Qed.

(** C6: on a valid aligned table whose edges never exceed the threshold on
    either side, the run finishes with zero switches (and an undefined hit
    rate), and at every date [Equity_Active] equals [Equity_Passive], which is
    [shares1_init * close_1 + shares2_init * close_2 + cash_init] of that
    date. *)
Theorem unreachable_threshold_no_switch (data : DataFrame) (s1 s2 : Z)
    (cash0 : Q) (params : TradeParams) :
  valid_table data = true ->
  never_exceeds data (hysteresis_bps params) = true ->
  exists res stats,
    backtest_switching data s1 s2 cash0 params = Ok (res, stats) /\
    Switches stats = 0%Z /\
    HitRate stats = None /\
    Equity_Passive res =
      map (fun r => Some (inject_Z s1 * Close_1 r + inject_Z s2 * Close_2 r + cash0))
          data /\
    map Some (Equity_Active res) = Equity_Passive res /\
    PositionFlag res = map (fun _ => if Z.ltb 0 s1 then 1%Z else (-1)%Z) data.
Proof.
  intros Hv Hq.
  assert (Hloop : active_loop data s1 s2 cash0 params
                  = Ok (hold_all data (init_state s1 s2 cash0))).
  { unfold active_loop, enumerate, index. rewrite length_map.
    apply hold_loop. intros j r s Hr. simpl.
    exact (step_holds data params j r s Hv Hq Hr). }
  unfold backtest_switching. rewrite Hloop. simpl.
  destruct (hold_all_state data (init_state s1 s2 cash0))
    as (E1 & E2 & _ & E4 & E5).
  cbv zeta in E1, E2, E4, E5. simpl in E1, E2, E4, E5.
  eexists. eexists. split; [reflexivity|]. simpl.
  rewrite E1, E2, E4, E5.
  rewrite (passive_equity_closed_form data s1 s2 cash0 (valid_table_unique _ Hv)).
  repeat split. now rewrite map_map.
Qed.

Lemma unreachable_threshold_no_switch_witness :
  valid_table sample_table = true /\
  never_exceeds sample_table (hysteresis_bps quiet_params) = true /\
  exists res stats,
    backtest_switching sample_table 16 0 0 quiet_params = Ok (res, stats) /\
    Switches stats = 0%Z /\
    HitRate stats = None /\
    Equity_Passive res =
      map (fun r => Some (inject_Z 16 * Close_1 r + inject_Z 0 * Close_2 r + 0))
          sample_table /\
    map Some (Equity_Active res) = Equity_Passive res /\
    PositionFlag res = map (fun _ => if Z.ltb 0 16 then 1%Z else (-1)%Z) sample_table.
Proof.
  split; [reflexivity|]. split; [reflexivity|].
  apply (unreachable_threshold_no_switch sample_table 16 0 0 quiet_params);
    reflexivity.
Defined.

(** ** Runs that finish *)

Lemma step_total (data : DataFrame) (params : TradeParams) (j : nat) (r : Row)
    (s : State) :
  valid_table data = true ->
  positive_opens data = true ->
  0 <= slippage_bps params ->
  nth_error data j = Some r ->
  exists s',
    step params (index data) (col1d data Open_1) (col1d data Close_1)
         (col1d data Open_2) (col1d data Close_2) s (j, date r) = Ok s'.
Proof.
  intros Hv Ho Hs Hr.
  assert (Hin := nth_error_In _ _ Hr).
  assert (Hu := valid_table_unique _ Hv).
  assert (Hcol : forall col, sget (col1d data col) (date r) = Ok (col r)).
  { intro col. rewrite sget_col1d, (first_row_unique data r Hu Hin). reflexivity. }
  destruct (edge_at_valid data j r Hv Hr) as [e He].
  destruct (valid_table_closes data r Hv Hin) as [Hc1 Hc2].
  destruct (positive_opens_in data r Ho Hin) as [Ho1 Ho2].
  unfold step. rewrite !Hcol. simpl. rewrite He. simpl.
  destruct (decide_switch j _ (holding1 s) e (hysteresis_bps params))
    as [do_switch t].
  destruct do_switch; [|eexists; reflexivity].
  unfold buy_leg.
  assert (Hpx : ~ exec_price (if t then Open_2 r else Open_1 r)
                             (slippage_bps params) "buy" == 0).
  { assert (P : 0 < exec_price (if t then Open_2 r else Open_1 r)
                               (slippage_bps params) "buy")
      by (apply exec_price_buy_pos; [now destruct t|exact Hs]).
    intro E. rewrite E in P. exact (Qlt_irrefl 0 P). }
  rewrite (int_floordiv_ok _ _ Hpx). simpl.
  rewrite (truediv_ok (Close_2 r) _ Hc1), (truediv_ok (Close_1 r) _ Hc2).
  destruct t; destruct (Nat.ltb 0 j); simpl; eexists; reflexivity.
Qed.


(** ** Sorting by date *)

Lemma nondecreasing_head (a : Timestamp) (l : list Timestamp) :
  nondecreasing (a :: l) = true -> forall x, In x l -> (a <= x)%Z.
Proof.
  revert a. induction l as [|b l IH]; intros a H x Hin; [destruct Hin|].
  simpl in H. apply andb_true_iff in H. destruct H as [Hab Hrest].
  apply Z.leb_le in Hab.
  destruct Hin as [->|Hin]; [exact Hab|].
  specialize (IH b Hrest x Hin). lia.
Qed.

Lemma nondecreasing_tail (a : Timestamp) (l : list Timestamp) :
  nondecreasing (a :: l) = true -> nondecreasing l = true.
Proof.
  destruct l as [|b l]; [reflexivity|].
  simpl. intro H. apply andb_true_iff in H. tauto.
Qed.

Lemma nondecreasing_cons (a : Timestamp) (l : list Timestamp) :
  nondecreasing l = true -> (forall x, In x l -> (a <= x)%Z) ->
  nondecreasing (a :: l) = true.
Proof.
  destruct l as [|b l]; intros Hl Ha; [reflexivity|].
  simpl. apply andb_true_iff. split; [|exact Hl].
  apply Z.leb_le. apply Ha. now left.
Qed.

Lemma strictly_increasing_cons (a : Timestamp) (l : list Timestamp) :
  strictly_increasing l = true -> (forall x, In x l -> (a < x)%Z) ->
  strictly_increasing (a :: l) = true.
Proof.
  destruct l as [|b l]; intros Hl Ha; [reflexivity|].
  simpl. apply andb_true_iff. split; [|exact Hl].
  apply Z.ltb_lt. apply Ha. now left.
Qed.

Section SortIndex.
Context {A : Type} (key : A -> Timestamp).

Lemma insert_by_date_perm (a : A) (l : list A) :
  Permutation (a :: l) (insert_by_date key a l).
Proof.
  induction l as [|b l IH]; simpl; [reflexivity|].
  destruct (Z.ltb (key a) (key b)); [reflexivity|].
  rewrite perm_swap. now apply perm_skip.
Qed.

Lemma sort_index_perm (l : list A) : Permutation l (sort_index key l).
Proof.
  unfold sort_index. rewrite (Permutation_rev l) at 1.
  induction (rev l) as [|a r IH]; simpl; [reflexivity|].
  rewrite <- insert_by_date_perm. now apply perm_skip.
Qed.

Lemma insert_by_date_sorted (a : A) (l : list A) :
  nondecreasing (map key l) = true ->
  nondecreasing (map key (insert_by_date key a l)) = true.
Proof.
  induction l as [|b l IH]; intro H; [reflexivity|].
  simpl. destruct (Z.ltb (key a) (key b)) eqn:E.
  - change (nondecreasing (key a :: map key (b :: l)) = true).
    apply nondecreasing_cons; [exact H|].
    apply Z.ltb_lt in E. intros x [<-|Hx]; [simpl; lia|].
    assert (L := nondecreasing_head _ _ H x Hx). simpl in L |- *. lia.
  - change (nondecreasing (key b :: map key (insert_by_date key a l)) = true).
    apply nondecreasing_cons.
    + apply IH. exact (nondecreasing_tail _ _ H).
    + apply Z.ltb_ge in E. intros x Hx.
      apply in_map_iff in Hx. destruct Hx as (y & <- & Hy).
      apply (Permutation_in _ (Permutation_sym (insert_by_date_perm a l))) in Hy.
      destruct Hy as [<-|Hy]; [exact E|].
      apply (nondecreasing_head _ _ H). now apply in_map.
Qed.

Lemma sort_index_sorted (l : list A) :
  nondecreasing (map key (sort_index key l)) = true.
Proof.
  unfold sort_index. induction (rev l) as [|a r IH]; [reflexivity|].
  simpl. now apply insert_by_date_sorted.
Qed.

Lemma filter_sorted (f : A -> bool) (l : list A) :
  nondecreasing (map key l) = true ->
  nondecreasing (map key (filter f l)) = true.
Proof.
  induction l as [|a l IH]; intro H; [reflexivity|].
  assert (Ht := nondecreasing_tail _ _ H).
  simpl. destruct (f a); [|now apply IH].
  change (nondecreasing (key a :: map key (filter f l)) = true).
  apply nondecreasing_cons; [now apply IH|].
  intros x Hx. apply in_map_iff in Hx. destruct Hx as (y & <- & Hy).
  apply filter_In in Hy. destruct Hy as [Hy _].
  apply (nondecreasing_head _ _ H). now apply in_map.
Qed.

(** Dropping the later rows of a date keeps the rows whose date was not seen. *)
Lemma drop_duplicated_In (l : list A) :
  forall seen a, In a (drop_duplicated key seen l) ->
                 In a l /\ existsb (Z.eqb (key a)) seen = false.
Proof.
  induction l as [|b l IH]; intros seen a Hin; [destruct Hin|].
  simpl in Hin. destruct (existsb (Z.eqb (key b)) seen) eqn:E.
  - destruct (IH _ _ Hin). split; [now right|assumption].
  - destruct Hin as [<-|Hin]; [split; [now left|exact E]|].
    destruct (IH _ _ Hin) as [H1 H2]. split; [now right|].
    simpl in H2. apply orb_false_iff in H2. tauto.
Qed.

Lemma drop_duplicated_dates (l : list A) :
  forall seen d,
    In d (map key (drop_duplicated key seen l)) <->
    In d (map key l) /\ existsb (Z.eqb d) seen = false.
Proof.
  induction l as [|b l IH]; intros seen d; simpl; [tauto|].
  destruct (existsb (Z.eqb (key b)) seen) eqn:E.
  - rewrite IH. split; [tauto|].
    intros [[<-|H] Hs]; [congruence|tauto].
  - simpl. rewrite IH. simpl.
    split.
    + intros [<-|[H Hs]]; [tauto|].
      apply orb_false_iff in Hs. tauto.
    + intros [[<-|H] Hs]; [now left|].
      destruct (Z.eqb d (key b)) eqn:Ed.
      * left. apply Z.eqb_eq in Ed. congruence.
      * right. split; [exact H|]. exact Hs.
Qed.

Lemma drop_duplicated_sorted (l : list A) :
  forall seen,
    nondecreasing (map key l) = true ->
    (forall s a, In s seen -> In a l -> (s <= key a)%Z) ->
    strictly_increasing (map key (drop_duplicated key seen l)) = true /\
    forall s b, In s seen -> In b (drop_duplicated key seen l) -> (s < key b)%Z.
Proof.
  induction l as [|a l IH]; intros seen Hs Hseen; [split; [reflexivity|intros ? ? ? []]|].
  assert (Ht := nondecreasing_tail _ _ Hs).
  assert (Hh := nondecreasing_head _ _ Hs).
  simpl. destruct (existsb (Z.eqb (key a)) seen) eqn:E.
  - apply IH; [exact Ht|]. intros s b Hin Hb. apply Hseen; [exact Hin|now right].
  - destruct (IH (key a :: seen) Ht) as [Hsi Hlt].
    { intros s b [<-|Hin] Hb.
      - apply Hh. now apply in_map.
      - apply Hseen; [exact Hin|now right]. }
    split.
    + change (strictly_increasing
                (key a :: map key (drop_duplicated key (key a :: seen) l)) = true).
      apply strictly_increasing_cons; [exact Hsi|].
      intros x Hx. apply in_map_iff in Hx. destruct Hx as (y & <- & Hy).
      apply (Hlt (key a) y); [now left|exact Hy].
    + intros s b Hin [<-|Hb].
      * assert (L := Hseen s a Hin (or_introl eq_refl)).
        assert (N : s <> key a).
        { intro Heq. subst s.
          assert (X : existsb (Z.eqb (key a)) seen = true).
          { apply existsb_exists. exists (key a). split; [exact Hin|apply Z.eqb_refl]. }
          congruence. }
        lia.
      * apply (Hlt s b); [now right|exact Hb].
Qed.
End SortIndex.

Lemma sorted_unique_increasing (l : list Timestamp) :
  nondecreasing l = true -> is_unique l = true -> strictly_increasing l = true.
Proof.
  induction l as [|a l IH]; intros Hs Hu; [reflexivity|].
  simpl in Hu. apply andb_true_iff in Hu. destruct Hu as [Hn Hu].
  apply strictly_increasing_cons.
  - apply IH; [exact (nondecreasing_tail _ _ Hs)|exact Hu].
  - intros x Hx. assert (L := nondecreasing_head _ _ Hs x Hx).
    assert (N : a <> x).
    { intro Heq. subst x. apply negb_true_iff in Hn.
      assert (X : existsb (Z.eqb a) l = true).
      { apply existsb_exists. exists a. split; [exact Hx|apply Z.eqb_refl]. }
      congruence. }
    lia.
Qed.

(** ** What the aligner returns *)

Lemma join_inner_In (left right : list RawRow) (j : JoinedRow) :
  In j (join_inner left right) <->
  exists a b, In a left /\ In b right /\ joins a b j.
Proof.
  unfold join_inner, joins. rewrite in_flat_map. split.
  - intros (a & Ha & Hj). apply in_map_iff in Hj. destruct Hj as (b & <- & Hb).
    apply filter_In in Hb. destruct Hb as [Hb Hd]. apply Z.eqb_eq in Hd.
    exists a, b. simpl. auto 10.
  - intros (a & b & Ha & Hb & H1 & H2 & H3 & H4 & H5 & H6).
    exists a. split; [exact Ha|]. apply in_map_iff. exists b. split.
    + destruct j; simpl in *; congruence.
    + apply filter_In. split; [exact Hb|]. now apply Z.eqb_eq.
Qed.

Lemma dropna_In (l : list JoinedRow) (j : JoinedRow) :
  In j (dropna l) <->
  In j l /\ jopen1 j <> None /\ jclose1 j <> None /\
  jopen2 j <> None /\ jclose2 j <> None.
Proof.
  unfold dropna. rewrite filter_In.
  destruct (jopen1 j), (jclose1 j), (jopen2 j), (jclose2 j);
    split; intros (H & T); split; try exact H; try reflexivity;
    try discriminate; try (repeat split; discriminate);
    try (destruct T as (? & ? & ? & ?); congruence).
Qed.

Lemma combined_In (left right : list RawRow) (j : JoinedRow) :
  In j (dropna (sort_index jdate (join_inner left right))) <->
  (exists a b, In a left /\ In b right /\ joins a b j) /\
  jopen1 j <> None /\ jclose1 j <> None /\
  jopen2 j <> None /\ jclose2 j <> None.
Proof.
  rewrite dropna_In, <- join_inner_In.
  assert (P := sort_index_perm jdate (join_inner left right)).
  split; intros [H T]; (split; [|exact T]).
  - exact (Permutation_in _ (Permutation_sym P) H).
  - exact (Permutation_in _ P H).
Qed.

(** X1: Every row of the aligned table is the join of a row of the left table
    and a row of the right table of one date, and none of its four values is
    missing. *)
Theorem align_two_rows (left right : list RawRow) :
  Forall (fun j =>
            (exists a b, In a left /\ In b right /\ joins a b j) /\
            jopen1 j <> None /\ jclose1 j <> None /\
            jopen2 j <> None /\ jclose2 j <> None)
         (align_two left right).
Proof.
  apply Forall_forall. intros j Hin. apply combined_In.
  unfold align_two in Hin.
  destruct (negb (is_unique _)); [|exact Hin].
  now apply drop_duplicated_In in Hin.
Qed.

Lemma align_two_index_increasing (left right : list RawRow) :
  strictly_increasing (map jdate (align_two left right)) = true.
Proof.
  assert (Hs : nondecreasing
                 (map jdate (dropna (sort_index jdate (join_inner left right))))
               = true).
  { unfold dropna. apply filter_sorted. apply sort_index_sorted. }
  unfold align_two.
  destruct (is_unique (map jdate (dropna _))) eqn:U; simpl.
  - now apply sorted_unique_increasing.
  - apply (drop_duplicated_sorted jdate _ [] Hs). intros s a [].
Qed.

Lemma to_frame_index (l : list JoinedRow) : index (to_frame l) = map jdate l.
Proof.
  unfold index, to_frame. rewrite map_map. reflexivity.
Qed.

Lemma align_two_index_In (left right : list RawRow) (d : Timestamp) :
  In d (map jdate (align_two left right)) <->
  exists j,
    jdate j = d /\
    (exists a b, In a left /\ In b right /\ joins a b j) /\
    jopen1 j <> None /\ jclose1 j <> None /\
    jopen2 j <> None /\ jclose2 j <> None.
Proof.
  assert (E : In d (map jdate (align_two left right)) <->
              In d (map jdate (dropna (sort_index jdate (join_inner left right))))).
  { unfold align_two. destruct (negb (is_unique _)); [|tauto].
    rewrite drop_duplicated_dates. simpl. tauto. }
  rewrite E, in_map_iff.
  split; intros (j & Hd & Hj); exists j; (split; [exact Hd|]);
    now apply combined_In.
Qed.

Lemma complete_pair (left right : list RawRow) (d : Timestamp) :
  (exists j,
     jdate j = d /\
     (exists a b, In a left /\ In b right /\ joins a b j) /\
     jopen1 j <> None /\ jclose1 j <> None /\
     jopen2 j <> None /\ jclose2 j <> None) <->
  exists a b,
    In a left /\ In b right /\ rdate a = d /\ rdate b = d /\
    complete a /\ complete b.
Proof.
  unfold complete, joins. split.
  - intros (j & <- & (a & b & Ha & Hb & J1 & J2 & J3 & J4 & J5 & J6) & N1 & N2 & N3 & N4).
    exists a, b. rewrite <- J3, <- J4, <- J5, <- J6. repeat split; auto; congruence.
  - intros (a & b & Ha & Hb & Da & Db & [A1 A2] & [B1 B2]).
    exists (mkJoinedRow (rdate a) (ropen a) (rclose a) (ropen b) (rclose b)).
    simpl. split; [exact Da|]. split; [|tauto].
    exists a, b. repeat split; auto; congruence.
Qed.

(** X2: The dates of the aligned table are strictly increasing, so they are
    unique, and so are those of the frame the backtest reads. *)
Theorem align_two_dates_increasing (left right : list RawRow) :
  strictly_increasing (map jdate (align_two left right)) = true /\
  is_unique (index (to_frame (align_two left right))) = true /\
  strictly_increasing (index (to_frame (align_two left right))) = true.
Proof.
  assert (H := align_two_index_increasing left right).
  rewrite to_frame_index. split; [exact H|]. split; [|exact H].
  now apply strictly_increasing_unique.
Qed.

(** X3: A date is in the aligned table exactly when the left table and the right
    table each have a row of that date with both its values. *)
Theorem align_two_dates (left right : list RawRow) (d : Timestamp) :
  In d (map jdate (align_two left right)) <->
  exists a b,
    In a left /\ In b right /\ rdate a = d /\ rdate b = d /\
    complete a /\ complete b.
Proof.
  rewrite align_two_index_In. apply complete_pair.
Qed.

Lemma align_two_dates_witness :
  In (day 1)
     (map jdate
        (align_two [mkRawRow (day 1) (Some 16) (Some 16); mkRawRow (day 0) None None]
                   [mkRawRow (day 0) (Some 24) (Some 24);
                    mkRawRow (day 1) (Some 24) (Some 25)])).
Proof.
  apply (align_two_dates
           [mkRawRow (day 1) (Some 16) (Some 16); mkRawRow (day 0) None None]
           [mkRawRow (day 0) (Some 24) (Some 24);
            mkRawRow (day 1) (Some 24) (Some 25)] (day 1)).
  exists (mkRawRow (day 1) (Some 16) (Some 16)),
         (mkRawRow (day 1) (Some 24) (Some 25)).
  unfold complete. simpl.
  repeat split; auto; discriminate.
Defined.

(** ** What [fetch_data] returns *)

(** X4: [fetch_data] raises [ValueError] exactly on an empty download; otherwise
    it returns the rows of the download, all of them, in date order. *)
Theorem fetch_data_sorted (downloaded : list RawRow) :
  (fetch_data downloaded = Raise ValueError <-> downloaded = []) /\
  (forall e, fetch_data downloaded = Raise e -> e = ValueError) /\
  (forall t,
     fetch_data downloaded = Ok t ->
     downloaded <> [] /\ Permutation downloaded t /\
     nondecreasing (map rdate t) = true).
Proof.
  unfold fetch_data. destruct downloaded as [|a l].
  - split; [tauto|]. split; [intros e H; congruence|discriminate].
  - split; [split; discriminate|]. split; [discriminate|].
    intros t H. inversion H; subst t. split; [discriminate|].
    split; [apply sort_index_perm|apply sort_index_sorted].
Qed.

Lemma fetch_data_sorted_witness :
  fetch_data [mkRawRow (day 1) (Some 16) (Some 17); mkRawRow (day 0) (Some 15) None]
  = Ok [mkRawRow (day 0) (Some 15) None; mkRawRow (day 1) (Some 16) (Some 17)] /\
  nondecreasing [day 0; day 1] = true.
Proof.
  split; [reflexivity|].
  destruct (fetch_data_sorted
              [mkRawRow (day 1) (Some 16) (Some 17); mkRawRow (day 0) (Some 15) None])
    as (_ & _ & H).
  destruct (H [mkRawRow (day 0) (Some 15) None; mkRawRow (day 1) (Some 16) (Some 17)]
              eq_refl) as (_ & _ & Hs).
  exact Hs.
Defined.

(** ** Lookups *)

(** X5: [sget] on a column raises [KeyError] exactly for a date that is not in
    the index; otherwise it returns the value of the first row of that date,
    whatever rows of the same date follow. *)
Theorem sget_first_or_keyerror (data : DataFrame) (col : Row -> Q)
    (dt : Timestamp) :
  (sget (col1d data col) dt = Raise KeyError <-> ~ In dt (index data)) /\
  (forall e, sget (col1d data col) dt = Raise e -> e = KeyError) /\
  (forall v,
     sget (col1d data col) dt = Ok v <->
     exists pre r post,
       data = pre ++ r :: post /\ date r = dt /\ v = col r /\
       Forall (fun x => date x <> dt) pre).
Proof.
  induction data as [|a data (IH1 & IH2 & IH3)].
  - simpl. split; [tauto|]. split; [intros e H; congruence|].
    intro v. split; [discriminate|].
    intros (pre & r & post & E & _). destruct pre; discriminate.
  - simpl. destruct (Z.eqb (date a) dt) eqn:E.
    + apply Z.eqb_eq in E. split; [split; [discriminate|tauto]|].
      split; [discriminate|].
      intro v. split.
      * intro H. inversion H; subst v.
        exists [], a, data. repeat split; auto.
      * intros (pre & r & post & Hd & Hr & -> & Hpre).
        destruct pre as [|x pre]; simpl in Hd; inversion Hd; subst; [reflexivity|].
        inversion Hpre; subst. contradiction.
    + apply Z.eqb_neq in E. split; [rewrite IH1; tauto|].
      split; [exact IH2|].
      intro v. rewrite IH3. split.
      * intros (pre & r & post & -> & Hr & -> & Hpre).
        exists (a :: pre), r, post. repeat split; auto.
      * intros (pre & r & post & Hd & Hr & -> & Hpre).
        destruct pre as [|x pre]; simpl in Hd; inversion Hd; subst;
          [contradiction|].
        inversion Hpre; subst.
        exists pre, r, post. repeat split; auto.
Qed.

Lemma sget_first_or_keyerror_witness :
  sget (col1d (mkRow (day 0) 1 2 3 4 :: mkRow (day 0) 5 6 7 8 :: nil) Close_1)
       (day 0) = Ok 2.
Proof.
  apply (sget_first_or_keyerror
           (mkRow (day 0) 1 2 3 4 :: mkRow (day 0) 5 6 7 8 :: nil) Close_1 (day 0)).
  exists [], (mkRow (day 0) 1 2 3 4), [mkRow (day 0) 5 6 7 8].
  repeat split. constructor.
Defined.

(** ** More on the loop *)

Section ForEachMore.
Context {S A : Type} (body : S -> A -> result S).

Lemma for_each_measure (f : S -> nat) (l : list A) :
  (forall s a s', body s a = Ok s' -> f s' = Datatypes.S (f s)) ->
  forall st st',
    for_each body l st = Ok st' -> f st' = (f st + List.length l)%nat.
Proof.
  intro Hstep. induction l as [|a l IH]; intros st st' Hrun; simpl in Hrun.
  - inversion Hrun; subst. simpl. lia.
  - destruct (body st a) as [s1|e] eqn:E; simpl in Hrun; [|discriminate].
    rewrite (IH s1 st' Hrun), (Hstep st a s1 E). simpl. lia.
Qed.

Lemma for_each_raise_inv (l : list A) :
  forall st e,
    for_each body l st = Raise e -> exists s a, In a l /\ body s a = Raise e.
Proof.
  induction l as [|a l IH]; intros st e Hrun; simpl in Hrun; [discriminate|].
  destruct (body st a) as [s1|e'] eqn:E; simpl in Hrun.
  - destruct (IH s1 e Hrun) as (s & x & Hin & Hx).
    exists s, x. split; [now right|exact Hx].
  - inversion Hrun; subst. exists st, a. split; [now left|exact E].
Qed.
End ForEachMore.

Lemma step_cases (params : TradeParams) (idx : list Timestamp)
    (o1 c1 o2 c2 : Series) (st st' : State) (i : nat) (dt : Timestamp) :
  step params idx o1 c1 o2 c2 st (i, dt) = Ok st' ->
  exists open1 close1 open2 close2 edge,
    (sget o1 dt = Ok open1 /\ sget c1 dt = Ok close1 /\
     sget o2 dt = Ok open2 /\ sget c2 dt = Ok close2) /\
    (st' = mark_to_close close1 close2 st \/
    let px := exec_price (if holding1 st then open2 else open1)
                         (slippage_bps params) "buy" in
    let sold := sell_leg params open1 open2 st in
    let n := Qfloor (cash sold / px) in
    let notional := inject_Z n * px in
    st' = mark_to_close close1 close2
            (mkState (if holding1 st then shares1 sold else (shares1 sold + n)%Z)
                     (if holding1 st then (shares2 sold + n)%Z else shares2 sold)
                     (cash sold - notional
                      - fee_on_notional notional (fee_bps params))
                     (negb (holding1 st)) (Some dt) (eq_active st) (pos_flag st)
                     (switches st + 1)%Z
                     (turnover_notional sold + Qabs notional)
                     (switch_hits st ++
                        [Qgtb (if holding1 st then close2 / close1
                               else close1 / close2) 1])
                     (switch_log st ++
                        [mkSwitchEvent i dt (holding1 st) edge open1 open2 px
                           (cash sold) n (cash sold - notional)
                           (cash sold - notional
                            - fee_on_notional notional (fee_bps params))
                           close1 close2]))).
Proof.
  intro Hstep. apply step_inv in Hstep.
  destruct Hstep as (open1 & close1 & open2 & close2 & edge & G1 & G2 & G3 & G4 & _ & Hd).
  exists open1, close1, open2, close2, edge.
  split; [auto|].
  cbv zeta in Hd. destruct Hd as [[_ ->]|(t & st2 & D & Hbuy & ->)]; [now left|].
  right. apply decide_switch_fires in D. destruct D as (Hi & _ & -> & _).
  apply (buy_leg_inv _ _ _ _ _ _ _ _ _ _ _ _ Hi) in Hbuy.
  cbv zeta in Hbuy. destruct Hbuy as (_ & _ & ->).
  destruct (sell_leg_bookkeeping params open1 open2 st)
    as (_ & _ & E3 & E4 & E5 & E6 & E7).
  cbv zeta. rewrite E3, E4, E5, E6, E7. reflexivity.
Qed.

Lemma sell_leg_turnover (params : TradeParams) (open1 open2 : Q) (st : State) :
  turnover_notional st <= turnover_notional (sell_leg params open1 open2 st).
Proof.
  unfold sell_leg. destruct (holding1 st); cbn [turnover_notional];
    match goal with
    | |- ?t <= ?t + Qabs ?x =>
        assert (H := Qabs_nonneg x); set (a := Qabs x) in *; clearbody a; lra
    end.
Qed.

Lemma sell_leg_only_held (params : TradeParams) (open1 open2 : Q) (st : State) :
  if holding1 st
  then shares1 (sell_leg params open1 open2 st) = 0%Z
  else shares2 (sell_leg params open1 open2 st) = 0%Z.
Proof.
  unfold sell_leg. destruct (holding1 st) eqn:H; simpl; reflexivity.
Qed.

(** One iteration adds one row to the two columns of the loop, leaves the
    turnover where it is or raises it, and changes it only with the switch
    counter. *)
Lemma step_bookkeeping (params : TradeParams) (idx : list Timestamp)
    (o1 c1 o2 c2 : Series) (st st' : State) (it : nat * Timestamp) :
  step params idx o1 c1 o2 c2 st it = Ok st' ->
  List.length (eq_active st') = Datatypes.S (List.length (eq_active st)) /\
  pos_flag st' = pos_flag st ++ [position_flag (holding1 st')] /\
  turnover_notional st <= turnover_notional st' /\
  ((switches st' = switches st /\ turnover_notional st' = turnover_notional st
    /\ holding1 st' = holding1 st /\ switch_log st' = switch_log st
    /\ (only_held st -> only_held st'))
   \/
   (switches st' = (switches st + 1)%Z /\ holding1 st' = negb (holding1 st)
    /\ only_held st'
    /\ exists ev, switch_log st' = switch_log st ++ [ev]
                  /\ ev_held1 ev = holding1 st)).
Proof.
  destruct it as [i dt]. intro Hstep. apply step_cases in Hstep.
  destruct Hstep as (open1 & close1 & open2 & close2 & edge & _ & [->| ->]).
  - unfold mark_to_close, only_held; simpl.
    rewrite length_app. simpl.
    split; [lia|]. split; [reflexivity|]. split; [lra|].
    left. repeat split; auto.
  - cbv zeta. unfold mark_to_close, only_held.
    cbn [eq_active pos_flag turnover_notional switches holding1 switch_log
         shares1 shares2 cash].
    rewrite length_app. cbn [List.length].
    split; [lia|]. split; [reflexivity|].
    split.
    + assert (H1 := sell_leg_turnover params open1 open2 st).
      match goal with
      | |- _ <= ?t + Qabs ?x =>
          assert (H2 := Qabs_nonneg x); set (a := Qabs x) in *; clearbody a;
          set (b := t) in *; clearbody b
      end.
      lra.
    + right. split; [reflexivity|]. split; [reflexivity|].
      split.
      * assert (H := sell_leg_only_held params open1 open2 st).
        destruct (holding1 st); cbn [negb]; exact H.
      * eexists. split; reflexivity.
Qed.

Lemma enumerate_length {A : Type} (l : list A) :
  List.length (enumerate l) = List.length l.
Proof.
  unfold enumerate. rewrite length_combine, length_seq. apply Nat.min_id.
Qed.

Lemma holding_after_succ (k : nat) (h0 : bool) :
  holding_after (Datatypes.S k) h0 = negb (holding_after k h0).
Proof.
  unfold holding_after. rewrite Nat.even_succ, <- Nat.negb_even.
  destruct (Nat.even k); simpl; [reflexivity|now rewrite negb_involutive].
Qed.

Lemma results_shape_lengths (data : DataFrame) (s1 s2 : Z) (cash0 : Q)
    (params : TradeParams) (res : Results) (stats : Stats) :
  backtest_switching data s1 s2 cash0 params = Ok (res, stats) ->
  List.length (PositionFlag res) = List.length data /\
  List.length (Equity_Active res) = List.length data.
Proof.
  intro H. apply backtest_switching_loop in H.
  destruct H as (st & Hloop & -> & _). simpl.
  unfold active_loop in Hloop.
  assert (Hn : List.length (enumerate (index data)) = List.length data)
    by (rewrite enumerate_length; unfold index; apply length_map).
  split.
  - apply (for_each_measure _ (fun s => List.length (pos_flag s))) in Hloop.
    + rewrite Hloop, Hn. reflexivity.
    + intros s a s' Hs. apply step_bookkeeping in Hs.
      destruct Hs as (_ & -> & _). rewrite length_app. simpl. lia.
  - apply (for_each_measure _ (fun s => List.length (eq_active s))) in Hloop.
    + rewrite Hloop, Hn. reflexivity.
    + intros s a s' Hs. now apply step_bookkeeping in Hs.
Qed.

(** ** The shape of the results *)

(** X8: A finished run returns one row per row of the table: the three columns
    have the length of the index, and every [PositionFlag] is [+1] or [-1]. *)
Theorem results_shape (data : DataFrame) (s1 s2 : Z) (cash0 : Q)
    (params : TradeParams) (res : Results) (stats : Stats) :
  backtest_switching data s1 s2 cash0 params = Ok (res, stats) ->
  res_index res = index data /\
  List.length (Equity_Active res) = List.length data /\
  List.length (Equity_Passive res) = List.length data /\
  List.length (PositionFlag res) = List.length data /\
  Forall (fun f => f = 1%Z \/ f = (-1)%Z) (PositionFlag res).
Proof.
  intro H. assert (Hrun := H). apply backtest_switching_loop in H.
  destruct H as (st & Hloop & -> & ->). simpl.
  unfold active_loop in Hloop.
  destruct (results_shape_lengths data s1 s2 cash0 params _ _ Hrun) as [L1 L2].
  simpl in L1, L2.
  split; [reflexivity|]. split; [exact L2|]. split; [|split; [exact L1|]].
  - unfold passive_equity, reindex, index. now rewrite !length_map.
  - apply (for_each_inv _
             (fun s => Forall (fun f => f = 1%Z \/ f = (-1)%Z) (pos_flag s)))
      in Hloop; [exact Hloop| |constructor].
    intros s a s' _ Hs Hb. apply step_bookkeeping in Hb.
    destruct Hb as (_ & -> & _). apply Forall_app. split; [exact Hs|].
    constructor; [|constructor].
    unfold position_flag. destruct (holding1 s'); auto.
Qed.

Lemma results_shape_witness :
  exists res stats,
    backtest_switching sample_table 16 0 0 sample_params = Ok (res, stats) /\
    List.length (Equity_Active res) = 3%nat /\
    List.length (Equity_Passive res) = 3%nat /\
    List.length (PositionFlag res) = 3%nat.
Proof.
  eexists. eexists. split; [vm_compute; reflexivity|].
  edestruct (results_shape sample_table 16 0 0 sample_params)
    as (_ & H1 & H2 & H3 & _); [vm_compute; reflexivity|].
  auto.
Defined.

(** ** Turnover *)

(** X16: The turnover of a finished run is never negative, the switch counter
    neither, and without a switch the turnover is zero. *)
Theorem turnover_accounting (data : DataFrame) (s1 s2 : Z) (cash0 : Q)
    (params : TradeParams) (res : Results) (stats : Stats) :
  backtest_switching data s1 s2 cash0 params = Ok (res, stats) ->
  0 <= Turnover_Notional stats /\
  (0 <= Switches stats)%Z /\
  (Switches stats = 0%Z -> Turnover_Notional stats = 0).
Proof.
  intro H. apply backtest_switching_loop in H.
  destruct H as (st & Hloop & _ & ->). simpl.
  unfold active_loop in Hloop.
  apply (for_each_inv _
           (fun s => 0 <= turnover_notional s /\ (0 <= switches s)%Z /\
                     (switches s = 0%Z -> turnover_notional s = 0)))
    in Hloop; [exact Hloop| |].
  - intros s a s' _ (P1 & P2 & P3) Hb. apply step_bookkeeping in Hb.
    destruct Hb as (_ & _ & Hle & [(Esw & Etn & _)|(Esw & _)]).
    + rewrite Esw, Etn. auto.
    + split; [lra|]. split; lia.
  - simpl. split; [lra|]. split; [lia|reflexivity].
Qed.

Lemma turnover_accounting_witness :
  exists res stats,
    backtest_switching sample_table 16 0 0 sample_params = Ok (res, stats) /\
    0 <= Turnover_Notional stats.
Proof.
  eexists. eexists. split; [vm_compute; reflexivity|].
  edestruct (turnover_accounting sample_table 16 0 0 sample_params)
    as (H & _); [vm_compute; reflexivity|].
  exact H.
Defined.

(** ** Full liquidation *)

(** X13: After the loop, once a switch has happened, or from the start when the
    initial holdings are on one side only, the portfolio has no share of the
    asset it is not flagged to hold. *)
Theorem only_held_asset_has_shares (data : DataFrame) (s1 s2 : Z) (cash0 : Q)
    (params : TradeParams) (st : State) :
  active_loop data s1 s2 cash0 params = Ok st ->
  switches st <> 0%Z \/ only_held (init_state s1 s2 cash0) ->
  only_held st.
Proof.
  unfold active_loop. intros Hloop Hpre.
  apply (for_each_inv _
           (fun s => (0 <= switches s)%Z /\
                     (switches s <> 0%Z \/ only_held (init_state s1 s2 cash0)
                      -> only_held s)))
    in Hloop.
  - destruct Hloop as [_ H]. now apply H.
  - intros s a s' _ (P1 & P2) Hb. apply step_bookkeeping in Hb.
    destruct Hb as (_ & _ & _ & [(Esw & _ & _ & _ & Hk)|(Esw & _ & Hk & _)]).
    + rewrite Esw. split; [exact P1|]. intro Hor. apply Hk. now apply P2.
    + split; [lia|]. intros _. exact Hk.
  - simpl. split; [lia|]. intros [H|H]; [congruence|exact H].
Qed.

Lemma only_held_asset_has_shares_witness :
  exists st,
    active_loop sample_table 16 5 0 sample_params = Ok st /\
    switches st <> 0%Z /\ only_held st.
Proof.
  eexists. split; [vm_compute; reflexivity|].
  split; [discriminate|].
  eapply (only_held_asset_has_shares sample_table 16 5 0 sample_params).
  - vm_compute. reflexivity.
  - left. discriminate.
Defined.

(** ** The direction of the switches *)

Lemma nth_error_snoc {A : Type} (l : list A) (x : A) (k : nat) (a : A) :
  nth_error (l ++ [x]) k = Some a ->
  nth_error l k = Some a \/ (k = List.length l /\ a = x).
Proof.
  intro H. destruct (Nat.lt_ge_cases k (List.length l)) as [Hlt|Hge].
  - left. now rewrite nth_error_app1 in H.
  - right. rewrite nth_error_app2 in H by exact Hge.
    destruct (k - List.length l)%nat as [|m] eqn:E; simpl in H.
    + inversion H. split; [lia|reflexivity].
    + destruct m; discriminate.
Qed.

(** X12: The switches of a run alternate: switch number [k] (from 0) leaves the
    initial holding when [k] is even and the other asset when [k] is odd.  So
    the last [PositionFlag] of a finished run on a table with rows is the
    initial one exactly when the number of switches is even. *)
Theorem switches_alternate (data : DataFrame) (s1 s2 : Z) (cash0 : Q)
    (params : TradeParams) (res : Results) (stats : Stats) :
  backtest_switching data s1 s2 cash0 params = Ok (res, stats) ->
  exists st,
    active_loop data s1 s2 cash0 params = Ok st /\
    Switches stats = Z.of_nat (List.length (switch_log st)) /\
    (forall k ev,
       nth_error (switch_log st) k = Some ev ->
       ev_held1 ev = holding_after k (Z.ltb 0 s1)) /\
    (data <> [] ->
     last_opt (PositionFlag res)
     = Some (position_flag
               (holding_after (List.length (switch_log st)) (Z.ltb 0 s1)))).
Proof.
  intro H.
  destruct (results_shape_lengths data s1 s2 cash0 params res stats H) as [Hlen _].
  apply backtest_switching_loop in H.
  destruct H as (st & Hloop & -> & ->). simpl in Hlen |- *.
  exists st. split; [exact Hloop|].
  assert (Hinv := active_loop_log_inv _ _ _ _ _ _ Hloop).
  destruct Hinv as (Icount & _). split; [exact Icount|].
  unfold active_loop in Hloop.
  apply (for_each_inv _
           (fun s =>
              holding1 s
              = holding_after (List.length (switch_log s)) (Z.ltb 0 s1) /\
              (forall k ev,
                 nth_error (switch_log s) k = Some ev ->
                 ev_held1 ev = holding_after k (Z.ltb 0 s1)) /\
              (pos_flag s = [] \/
               last_opt (pos_flag s) = Some (position_flag (holding1 s)))))
    in Hloop.
  - destruct Hloop as (Hh & Hev & Hlast). split; [exact Hev|].
    intro Hne. destruct Hlast as [E|E].
    + rewrite E in Hlen. destruct data; [congruence|discriminate].
    + now rewrite E, Hh.
  - intros s a s' _ (Hh & Hev & _) Hb. apply step_bookkeeping in Hb.
    destruct Hb as (_ & Epf & _ & [(_ & _ & Eh & Elog & _)|(_ & Eh & _ & ev & Elog & Eev)]).
    + rewrite Eh, Elog. split; [exact Hh|]. split; [exact Hev|].
      right. rewrite Epf, last_opt_snoc, Eh. reflexivity.
    + rewrite Elog, length_app. simpl.
      rewrite Nat.add_1_r, holding_after_succ, <- Hh.
      split; [exact Eh|]. split.
      * intros k e Hk. apply nth_error_snoc in Hk.
        destruct Hk as [Hk|[-> ->]]; [now apply Hev|].
        now rewrite Eev, Hh.
      * right. rewrite Epf, last_opt_snoc. reflexivity.
  - simpl. split; [reflexivity|]. split; [|now left].
    intros k ev Hk. destruct k; discriminate.
Qed.

Lemma switches_alternate_witness :
  exists res stats,
    backtest_switching sample_table 16 0 0 sample_params = Ok (res, stats) /\
    last_opt (PositionFlag res) = Some 1%Z.
Proof.
  eexists. eexists. split; [vm_compute; reflexivity|].
  edestruct (switches_alternate sample_table 16 0 0 sample_params)
    as (st & Hloop & _ & _ & Hlast); [vm_compute; reflexivity|].
  reflexivity.
Defined.

(** ** Where the two curves start *)

Lemma step_eq_active (params : TradeParams) (idx : list Timestamp)
    (o1 c1 o2 c2 : Series) (st st' : State) (it : nat * Timestamp) :
  step params idx o1 c1 o2 c2 st it = Ok st' ->
  exists v, eq_active st' = eq_active st ++ [v].
Proof.
  destruct it as [i dt]. intro Hstep. apply step_cases in Hstep.
  destruct Hstep as (open1 & close1 & open2 & close2 & edge & _ & [->| ->]);
    eexists; reflexivity.
Qed.

(** X10: On a table with rows, the active and the passive curve of a finished run
    start at the same value, the initial holdings at the first closes. *)
Theorem curves_start_equal (r : Row) (data : DataFrame) (s1 s2 : Z)
    (cash0 : Q) (params : TradeParams) (res : Results) (stats : Stats) :
  backtest_switching (r :: data) s1 s2 cash0 params = Ok (res, stats) ->
  let v0 := inject_Z s1 * Close_1 r + inject_Z s2 * Close_2 r + cash0 in
  hd_error (Equity_Active res) = Some v0 /\
  hd_error (Equity_Passive res) = Some (Some v0).
Proof.
  intro H. apply backtest_switching_loop in H.
  destruct H as (st & Hloop & -> & _). cbv zeta. simpl Equity_Active.
  simpl Equity_Passive. split.
  - unfold active_loop in Hloop.
    change (enumerate (index (r :: data)))
      with ((0%nat, date r)
            :: combine (seq 1 (List.length (index data))) (index data)) in Hloop.
    change (for_each ?b ((0%nat, date r) :: ?l) ?s)
      with (bind (b s (0%nat, date r)) (fun s' => for_each b l s')) in Hloop.
    rewrite step_first in Hloop. simpl bind in Hloop.
    apply (for_each_inv _
             (fun s => exists l,
                  eq_active s
                  = (inject_Z s1 * Close_1 r + inject_Z s2 * Close_2 r + cash0) :: l))
      in Hloop.
    + destruct Hloop as [l ->]. reflexivity.
    + intros s a s' _ [l Hl] Hs. apply step_eq_active in Hs.
      destruct Hs as [v ->]. rewrite Hl. eexists. reflexivity.
    + eexists. reflexivity.
  - unfold passive_equity. rewrite passive_series.
    set (col := fun x => inject_Z s1 * Close_1 x + inject_Z s2 * Close_2 x + cash0).
    assert (E : sget (col1d (r :: data) col) (date r) = Ok (col r))
      by (simpl; now rewrite Z.eqb_refl).
    unfold reindex. change (index (r :: data)) with (date r :: index data).
    cbn [map hd_error].
    destruct (negb (is_unique (map fst (col1d (r :: data) col)))).
    + rewrite sget_drop_duplicated by reflexivity. now rewrite E.
    + now rewrite E.
Qed.

Lemma curves_start_equal_witness :
  exists res stats,
    backtest_switching sample_table 16 0 0 sample_params = Ok (res, stats) /\
    hd_error (Equity_Passive res)
    = Some (Some (inject_Z 16 * 16 + inject_Z 0 * 16 + 0)).
Proof.
  eexists. eexists. split; [vm_compute; reflexivity|].
  edestruct (curves_start_equal
               (mkRow (day 0) 16 16 16 16)
               [mkRow (day 1) 16 16 24 24; mkRow (day 8) 20 20 24 20]
               16 0 0 sample_params) as [_ H]; [vm_compute; reflexivity|].
  exact H.
Defined.

(** ** The range of the hit rate *)

Lemma count_true_le (l : list bool) : (count_true l <= List.length l)%nat.
Proof. unfold count_true. apply filter_length_le. Qed.

Lemma hit_rate_range (hits : list bool) (q : Q) :
  hit_rate hits = Some q -> 0 <= q /\ q <= 1.
Proof.
  intro H.
  assert (Hne : hits <> []) by (intro E; subst; discriminate).
  rewrite (hit_rate_some hits Hne) in H.
  inversion H; subst q; clear H.
  assert (Hc := count_true_le hits).
  assert (Hn : (0 < List.length hits)%nat)
    by (destruct hits; [congruence|simpl; lia]).
  generalize dependent (count_true hits). intros c Hc.
  generalize dependent (List.length hits). intros n Hc Hn.
  assert (Hpos : 0 < inject_Z (Z.of_nat n)).
  { rewrite <- (Zlt_Qlt 0). lia. }
  split.
  - apply Qle_shift_div_l; [exact Hpos|].
    rewrite Qmult_0_l. rewrite <- (Zle_Qle 0). lia.
  - apply Qle_shift_div_r; [exact Hpos|].
    rewrite Qmult_1_l. rewrite <- Zle_Qle. lia.
Qed.

(** X17: The hit rate of a finished run, when it is a number, lies between 0
    and 1. *)
Theorem hit_rate_between_0_and_1 (data : DataFrame) (s1 s2 : Z) (cash0 : Q)
    (params : TradeParams) (res : Results) (stats : Stats) (q : Q) :
  backtest_switching data s1 s2 cash0 params = Ok (res, stats) ->
  HitRate stats = Some q ->
  0 <= q /\ q <= 1.
Proof.
  intros H Hq. apply backtest_switching_loop in H.
  destruct H as (st & _ & _ & ->). simpl in Hq.
  exact (hit_rate_range _ _ Hq).
Qed.

Lemma hit_rate_between_0_and_1_witness :
  0 <= 1 # 2 /\ 1 # 2 <= 1.
Proof.
  eapply (hit_rate_between_0_and_1 sample_table 16 0 0 sample_params).
  - vm_compute. reflexivity.
  - reflexivity.
Defined.

(** ** The passive curve on any table *)

(** X11: Whatever the table, repeated dates included, no passive value is missing,
    and each is the initial holdings at the closes of the first row of its
    date, the row the active loop reads too. *)
Theorem passive_equity_first_rows (data : DataFrame) (s1 s2 : Z) (cash0 : Q) :
  Forall2
    (fun r v =>
       exists r0,
         first_row data (date r) = Some r0 /\
         sget (col1d data Close_1) (date r) = Ok (Close_1 r0) /\
         sget (col1d data Close_2) (date r) = Ok (Close_2 r0) /\
         v = Some (inject_Z s1 * Close_1 r0 + inject_Z s2 * Close_2 r0 + cash0))
    data (passive_equity data s1 s2 cash0).
Proof.
  unfold passive_equity. rewrite passive_series.
  set (col := fun x => inject_Z s1 * Close_1 x + inject_Z s2 * Close_2 x + cash0).
  unfold reindex, index. rewrite map_map.
  assert (G : forall l,
             (forall r, In r l -> In r data) ->
             Forall2
               (fun r v =>
                  exists r0,
                    first_row data (date r) = Some r0 /\
                    sget (col1d data Close_1) (date r) = Ok (Close_1 r0) /\
                    sget (col1d data Close_2) (date r) = Ok (Close_2 r0) /\
                    v = Some (col r0))
               l
               (map (fun x =>
                       match
                         sget (if negb (is_unique (map fst (col1d data col)))
                               then drop_duplicated fst [] (col1d data col)
                               else col1d data col) (date x)
                       with
                       | Ok v => Some v
                       | Raise _ => None
                       end) l)).
  { induction l as [|r l IH]; intro Hsub; [constructor|].
    simpl. constructor.
    - assert (Hin : In (date r) (index data))
        by (unfold index; apply in_map; apply Hsub; now left).
      destruct (sget_col1d_ok data (date r) Hin) as (r0 & _ & _ & F & Hcol).
      exists r0. split; [exact F|]. split; [apply Hcol|]. split; [apply Hcol|].
      destruct (negb (is_unique (map fst (col1d data col)))).
      + rewrite sget_drop_duplicated by reflexivity. now rewrite Hcol.
      + now rewrite Hcol.
    - apply IH. intros x Hx. apply Hsub. now right. }
  apply G. auto.
Qed.

(** ** The errors of the whole backtest *)

Lemma backtest_switching_raises (data : DataFrame) (s1 s2 : Z) (cash0 : Q)
    (params : TradeParams) (e : exn) :
  backtest_switching data s1 s2 cash0 params = Raise e -> e = ZeroDivisionError.
Proof.
  unfold backtest_switching. intro H.
  apply bind_raise_inv in H. destruct H as [H|[st [_ H]]]; [|discriminate].
  unfold active_loop in H. apply for_each_raise_inv in H.
  destruct H as (s & a & Hin & Hs). exact (step_raises _ _ _ _ _ Hin Hs).
Qed.



(** ** The cost of a switch *)

Lemma buy_leg_fields (params : TradeParams) (i : nat) (dt : Timestamp)
    (t held : bool) (e open1 close1 open2 close2 : Q) (s s2 : State) :
  buy_leg params i dt t held e open1 close1 open2 close2 s = Ok s2 ->
  let px := exec_price (if t then open2 else open1) (slippage_bps params) "buy" in
  exists n,
    shares1 s2 = (if t then shares1 s else (shares1 s + n)%Z) /\
    shares2 s2 = (if t then (shares2 s + n)%Z else shares2 s) /\
    cash s2 = cash s - inject_Z n * px
              - fee_on_notional (inject_Z n * px) (fee_bps params).
Proof.
  unfold buy_leg. intro H. cbv zeta.
  apply bind_ok_inv in H. destruct H as (n & _ & H).
  apply bind_ok_inv in H. destruct H as (hit & _ & H).
  inversion H; subst s2; clear H. exists n. simpl. auto.
Qed.

Lemma exec_price_no_slippage (open_px slip : Q) (side : string) :
  slip == 0 -> exec_price open_px slip side == open_px.
Proof.
  intro H. unfold exec_price.
  destruct (String.eqb (lower side) "buy"); rewrite H; unfold bps; field.
Qed.

Lemma sell_leg_value (params : TradeParams) (open1 open2 : Q) (st : State) :
  fee_bps params == 0 -> slippage_bps params == 0 ->
  value_at_open open1 open2 (sell_leg params open1 open2 st)
  == value_at_open open1 open2 st.
Proof.
  intros Hf Hs. unfold value_at_open, sell_leg.
  destruct (holding1 st); cbn [shares1 shares2 cash];
    rewrite (fee_zero _ _ Hf), (exec_price_no_slippage _ _ "sell" Hs);
    change (inject_Z 0) with 0; ring.
Qed.



(** ** The one-shot signal *)

Lemma Qgtb_comp (x y d : Q) : x == y -> Qgtb x d = Qgtb y d.
Proof.
  intro H. unfold Qgtb, Qltb. f_equal. apply Qleb_comp; [exact H|reflexivity].
Qed.

(** X20: With a threshold that is not negative the signal never asks to switch
    both ways on the same prices: when it tells a holder of A to switch to B
    it tells a holder of B to hold, and the other way round. *)
Theorem signal2_no_ping_pong (oA cA oB cB delta : Q) :
  0 <= delta ->
  (signal2_action oA cA oB cB "A" delta = Ok SwitchToB ->
   signal2_action oA cA oB cB "B" delta = Ok HoldB) /\
  (signal2_action oA cA oB cB "B" delta = Ok SwitchToA ->
   signal2_action oA cA oB cB "A" delta = Ok HoldA).
Proof.
  intro Hd. unfold signal2_action.
  destruct (truediv (oA - cA) cA) as [rA|e]; simpl; [|split; discriminate].
  destruct (truediv (oB - cB) cB) as [rB|e]; simpl; [|split; discriminate].
  set (edge := (rB - rA) * bps).
  destruct (Qgtb edge delta) eqn:G, (Qgtb (- edge) delta) eqn:L;
    split; intro H; try discriminate; try reflexivity.
  - apply Qgtb_gt in G. apply Qgtb_gt in L. lra.
  - apply Qgtb_gt in G. apply Qgtb_gt in L. lra.
Qed.

Lemma signal2_no_ping_pong_witness :
  0 <= 7 /\
  signal2_action 16 16 24 16 "A" 7 = Ok SwitchToB /\
  signal2_action 16 16 24 16 "B" 7 = Ok HoldB.
Proof.
  split; [discriminate|]. split; [reflexivity|].
  apply (signal2_no_ping_pong 16 16 24 16 7); [discriminate|reflexivity].
Defined.

Lemma signal2_raises (oA cA oB cB delta : Q) (holding : string) (e : exn) :
  signal2_action oA cA oB cB holding delta = Raise e -> e = ZeroDivisionError.
Proof.
  unfold signal2_action. intro H.
  apply bind_raise_inv in H. destruct H as [H|[rA [_ H]]];
    [exact (truediv_raises _ _ _ H)|].
  apply bind_raise_inv in H. destruct H as [H|[rB [_ H]]];
    [exact (truediv_raises _ _ _ H)|].
  cbv zeta in H.
  destruct (String.eqb (upper holding) "A");
    [destruct (Qgtb _ delta)|destruct (Qgtb _ delta)]; discriminate.
Qed.

(** X21: The signal does not depend on which ticker is called A: with the two
    tickers exchanged and the holding renamed, it gives the same answer with
    the labels exchanged, and raises on the same inputs. *)
Theorem signal2_relabel (oA cA oB cB delta : Q) :
  signal2_action oB cB oA cA "B" delta
  = (a <- signal2_action oA cA oB cB "A" delta ;; Ok (swap_labels a)) /\
  signal2_action oB cB oA cA "A" delta
  = (a <- signal2_action oA cA oB cB "B" delta ;; Ok (swap_labels a)).
Proof.
  unfold signal2_action, truediv.
  destruct (Qeq_bool cA 0), (Qeq_bool cB 0); simpl; try (split; reflexivity).
  set (rA := (oA - cA) / cA). set (rB := (oB - cB) / cB).
  assert (E1 : - ((rA - rB) * bps) == (rB - rA) * bps) by ring.
  assert (E2 : (rA - rB) * bps == - ((rB - rA) * bps)) by ring.
  rewrite (Qgtb_comp _ _ delta E1), (Qgtb_comp _ _ delta E2).
  split.
  - now destruct (Qgtb ((rB - rA) * bps) delta).
  - now destruct (Qgtb (- ((rB - rA) * bps)) delta).
Qed.

(** ** Waiting for the open *)

Lemma today_open_from_some (provider : nat -> Download) (n : nat) :
  forall k o sleeps,
    today_open_from provider k n = (Some o, sleeps) <->
    (sleeps < n)%nat /\ first_open (provider (k + sleeps)%nat) = Some o /\
    forall j, (j < sleeps)%nat -> first_open (provider (k + j)%nat) = None.
Proof.
  induction n as [|n IH]; intros k o sleeps; simpl.
  - split; [discriminate|]. intros [H _]. lia.
  - destruct (first_open (provider k)) as [o'|] eqn:E.
    + split.
      * intro H. inversion H; subst. rewrite Nat.add_0_r.
        split; [lia|]. split; [exact E|]. intros j Hj. lia.
      * intros (_ & Hs & Hnone). destruct sleeps as [|s].
        -- rewrite Nat.add_0_r in Hs. congruence.
        -- specialize (Hnone 0%nat ltac:(lia)). rewrite Nat.add_0_r in Hnone.
           congruence.
    + destruct (today_open_from provider (Datatypes.S k) n) as [r s] eqn:R.
      split.
      * intro H. inversion H; subst r sleeps; clear H.
        apply IH in R. destruct R as (Hlt & Hs & Hnone).
        split; [lia|]. split.
        -- now replace (k + Datatypes.S s)%nat with (Datatypes.S k + s)%nat by lia.
        -- intros j Hj. destruct j as [|j]; [now rewrite Nat.add_0_r|].
           replace (k + Datatypes.S j)%nat with (Datatypes.S k + j)%nat by lia.
           apply Hnone. lia.
      * intros (Hlt & Hs & Hnone). destruct sleeps as [|s'].
        -- rewrite Nat.add_0_r in Hs. congruence.
        -- assert (R' : today_open_from provider (Datatypes.S k) n = (Some o, s')).
           { apply IH. split; [lia|]. split.
             - now replace (Datatypes.S k + s')%nat with (k + Datatypes.S s')%nat by lia.
             - intros j Hj.
               replace (Datatypes.S k + j)%nat with (k + Datatypes.S j)%nat by lia.
               apply Hnone. lia. }
           rewrite R' in R. inversion R; subst. reflexivity.
Qed.

Lemma today_open_from_none (provider : nat -> Download) (n : nat) :
  forall k sleeps,
    today_open_from provider k n = (None, sleeps) <->
    sleeps = n /\
    forall j, (j < n)%nat -> first_open (provider (k + j)%nat) = None.
Proof.
  induction n as [|n IH]; intros k sleeps; simpl.
  - split.
    + intro H. inversion H. split; [reflexivity|]. intros j Hj. lia.
    + intros [-> _]. reflexivity.
  - destruct (first_open (provider k)) as [o'|] eqn:E.
    + split; [discriminate|]. intros [_ Hnone].
      specialize (Hnone 0%nat ltac:(lia)). rewrite Nat.add_0_r in Hnone. congruence.
    + destruct (today_open_from provider (Datatypes.S k) n) as [r s] eqn:R.
      split.
      * intro H. inversion H; subst r sleeps; clear H.
        apply IH in R. destruct R as (-> & Hnone).
        split; [reflexivity|].
        intros j Hj. destruct j as [|j]; [now rewrite Nat.add_0_r|].
        replace (k + Datatypes.S j)%nat with (Datatypes.S k + j)%nat by lia.
        apply Hnone. lia.
      * intros (-> & Hnone).
        assert (R' : today_open_from provider (Datatypes.S k) n = (None, n)).
        { apply IH. split; [reflexivity|]. intros j Hj.
          replace (Datatypes.S k + j)%nat with (k + Datatypes.S j)%nat by lia.
          apply Hnone. lia. }
        rewrite R' in R. inversion R; subst. reflexivity.
Qed.

(** X22: [today_open] returns the first open the provider has within [retries]
    attempts, having slept once per attempt that failed; it raises
    [RuntimeError] exactly when all of the [retries] attempts fail, after as
    many sleeps, and at once, without an attempt, when [retries <= 0]. *)
Theorem today_open_first_available (provider : nat -> Download) (retries : Z) :
  (forall o sleeps,
     today_open provider retries = (Some o, sleeps) <->
     (Z.of_nat sleeps < retries)%Z /\ first_open (provider sleeps) = Some o /\
     forall j, (j < sleeps)%nat -> first_open (provider j) = None) /\
  (forall sleeps,
     today_open provider retries = (None, sleeps) <->
     sleeps = Z.to_nat retries /\
     forall j, (j < Z.to_nat retries)%nat -> first_open (provider j) = None) /\
  ((retries <= 0)%Z -> today_open provider retries = (None, 0%nat)).
Proof.
  unfold today_open. split; [|split].
  - intros o sleeps. rewrite today_open_from_some. simpl.
    split; intros (H1 & H2 & H3); (split; [lia|]); auto.
  - intros sleeps. rewrite today_open_from_none. simpl. tauto.
  - intro H. replace (Z.to_nat retries) with 0%nat by lia. reflexivity.
Qed.

Lemma today_open_first_available_witness :
  today_open (fun k => if Nat.ltb k 2 then Some [] else Some [24; 25]) (-1)
  = (None, 0%nat).
Proof.
  apply (today_open_first_available
           (fun k => if Nat.ltb k 2 then Some [] else Some [24; 25]) (-1)).
  lia.
Defined.

(** ** The maximum drawdown *)

Lemma Qmax2_ge (m x : Q) : x <= Qmax2 m x /\ m <= Qmax2 m x.
Proof.
  unfold Qmax2. destruct (Qle_bool m x) eqn:E.
  - apply Qle_bool_iff in E. split; [apply Qle_refl|exact E].
  - split; [|apply Qle_refl].
    destruct (Qlt_le_dec x m) as [H|H]; [now apply Qlt_le_weak|].
    apply Qle_bool_iff in H. congruence.
Qed.

Lemma Qmax2_eq (m x : Q) : x == Qmax2 m x <-> m <= x.
Proof.
  unfold Qmax2. destruct (Qle_bool m x) eqn:E.
  - apply Qle_bool_iff in E. split; [auto|reflexivity].
  - split; intro H.
    + rewrite H. apply Qle_refl.
    + apply Qle_bool_iff in H. congruence.
Qed.

Lemma Qmax2_of_le (m x : Q) : m <= x -> Qmax2 m x = x.
Proof.
  intro H. unfold Qmax2. apply Qle_bool_iff in H. now rewrite H.
Qed.

Lemma drawdown_value (x cm : Q) :
  0 < x -> x <= cm ->
  exists q,
    xsub (series_truediv x cm) 1 = Fin q /\ -1 < q /\ q <= 0 /\
    (q == 0 <-> x == cm).
Proof.
  intros Hx Hle.
  assert (Hcm : 0 < cm) by (eapply Qlt_le_trans; eassumption).
  assert (Hnz : ~ cm == 0) by (intro E; rewrite E in Hcm; exact (Qlt_irrefl 0 Hcm)).
  unfold series_truediv. apply Qeq_bool_false in Hnz. rewrite Hnz. simpl.
  exists (x / cm - 1). split; [reflexivity|].
  assert (H0 : 0 < x / cm) by (apply Qlt_shift_div_l; [exact Hcm|lra]).
  assert (H1 : x / cm <= 1) by (apply Qle_shift_div_r; [exact Hcm|lra]).
  assert (Hmul : x / cm * cm == x).
  { apply Qeq_bool_false in Hnz. field. exact Hnz. }
  set (d := x / cm) in *. clearbody d.
  split; [lra|]. split; [lra|].
  split; intro H.
  - assert (Hd : d == 1) by lra. rewrite Hd in Hmul. lra.
  - rewrite H in Hmul. assert (Hd : (d - 1) * cm == 0) by lra.
    apply Qmult_integral in Hd. destruct Hd as [Hd|Hd]; [exact Hd|].
    rewrite Hd in Hcm. exfalso. exact (Qlt_irrefl 0 Hcm).
Qed.

Lemma drawdowns_from (l : list Q) :
  forall m,
    0 < m -> Forall (fun x => 0 < x) l ->
    Forall (fun d => exists q, d = Fin q /\ -1 < q /\ q <= 0)
           (map (fun p => xsub (series_truediv (fst p) (snd p)) 1)
                (combine l (cummax_from m l))) /\
    (Forall (fun d => exists q, d = Fin q /\ q == 0)
            (map (fun p => xsub (series_truediv (fst p) (snd p)) 1)
                 (combine l (cummax_from m l)))
     <-> never_falls (m :: l)).
Proof.
  induction l as [|x l IH]; intros m Hm Hpos.
  - simpl. split; [constructor|]. split; [auto|constructor].
  - inversion Hpos as [|? ? Hx Hl]; subst.
    destruct (Qmax2_ge m x) as [G1 G2].
    assert (HM : 0 < Qmax2 m x) by (eapply Qlt_le_trans; eassumption).
    destruct (IH (Qmax2 m x) HM Hl) as [IH1 IH2].
    destruct (drawdown_value x (Qmax2 m x) Hx G1) as (q & Eq & Q1 & Q2 & Q3).
    cbn [cummax_from combine map fst snd]. rewrite Eq.
    split.
    + constructor; [exists q; auto|exact IH1].
    + split.
      * intro H. inversion H as [|? ? (q' & Eq' & Z') Ht]; subst.
        inversion Eq'; subst q'. apply Q3 in Z'. apply Qmax2_eq in Z'.
        apply IH2 in Ht. rewrite (Qmax2_of_le _ _ Z') in Ht.
        split; assumption.
      * intros [Hmx Hnf].
        constructor.
        -- exists q. split; [reflexivity|]. apply Q3. now apply Qmax2_eq.
        -- apply IH2. now rewrite (Qmax2_of_le _ _ Hmx).
Qed.

Lemma series_min_range (dd : list xfloat) :
  dd <> [] ->
  Forall (fun d => exists q, d = Fin q /\ -1 < q /\ q <= 0) dd ->
  exists m,
    series_min dd = Fin m /\ -1 < m /\ m <= 0 /\
    (m == 0 <-> Forall (fun d => exists q, d = Fin q /\ q == 0) dd).
Proof.
  induction dd as [|d dd IH]; intros Hne Hall; [congruence|].
  inversion Hall as [|? ? (q & -> & Q1 & Q2) Ht]; subst.
  destruct dd as [|d' dd].
  - exists q. simpl. repeat split; auto.
    + intro H. constructor; [exists q; auto|constructor].
    + intro H. inversion H as [|? ? (q' & Eq' & Z') _]; subst.
      now inversion Eq'; subst.
  - destruct (IH ltac:(discriminate) Ht) as (m & Em & M1 & M2 & M3).
    change (series_min (Fin q :: d' :: dd))
      with (xmin (Fin q) (series_min (d' :: dd))).
    rewrite Em. simpl. destruct (Qle_bool q m) eqn:E.
    + apply Qle_bool_iff in E. exists q. repeat split; auto.
      * intro H. constructor; [exists q; auto|]. apply M3. lra.
      * intro H. inversion H as [|? ? (q' & Eq' & Z') _]; subst.
        now inversion Eq'; subst.
    + assert (L : m <= q).
      { destruct (Qlt_le_dec q m) as [H|H]; [|exact H].
        apply Qlt_le_weak in H. apply Qle_bool_iff in H. congruence. }
      exists m. repeat split; auto.
      * intro H. constructor; [exists q; split; [reflexivity|lra]|now apply M3].
      * intro H. inversion H as [|? ? _ Ht']; subst. now apply M3.
Qed.



(** ** The dates of the results *)

(** X7: The index of the results of the whole backtest is strictly increasing,
    and a date is in it exactly when each of the two downloads has a row of
    that date with both its values. *)
Theorem main_backtest_index (download1 download2 : list RawRow)
    (shares1 shares2 : Z) (cash_arg : Q) (params : TradeParams)
    (res : Results) (stats : Stats) :
  main_backtest download1 download2 shares1 shares2 cash_arg params
  = Ok (res, stats) ->
  strictly_increasing (res_index res) = true /\
  forall d,
    In d (res_index res) <->
    exists a b,
      In a download1 /\ In b download2 /\ rdate a = d /\ rdate b = d /\
      complete a /\ complete b.
Proof.
  unfold main_backtest, fetch_data.
  destruct download1 as [|a1 d1]; [discriminate|].
  destruct download2 as [|a2 d2]; [discriminate|].
  simpl bind. intro H. apply backtest_switching_loop in H.
  destruct H as (st & _ & -> & _). simpl res_index.
  rewrite to_frame_index. split; [apply align_two_index_increasing|].
  intro d. rewrite align_two_index_In, complete_pair.
  assert (P1 := sort_index_perm rdate (a1 :: d1)).
  assert (P2 := sort_index_perm rdate (a2 :: d2)).
  split; intros (a & b & Ha & Hb & T); exists a, b.
  - split; [exact (Permutation_in _ (Permutation_sym P1) Ha)|].
    split; [exact (Permutation_in _ (Permutation_sym P2) Hb)|exact T].
  - split; [exact (Permutation_in _ P1 Ha)|].
    split; [exact (Permutation_in _ P2 Hb)|exact T].
Qed.

Lemma main_backtest_index_witness :
  exists res stats,
    main_backtest
      [mkRawRow (day 1) (Some 16) (Some 16); mkRawRow (day 0) (Some 16) (Some 16);
       mkRawRow (day 2) (Some 16) None]
      [mkRawRow (day 0) (Some 16) (Some 16); mkRawRow (day 1) (Some 24) (Some 24);
       mkRawRow (day 2) (Some 24) (Some 24)]
      16 0 0 sample_params = Ok (res, stats) /\
    strictly_increasing (res_index res) = true.
Proof.
  eexists. eexists. split; [vm_compute; reflexivity|].
  eapply (main_backtest_index
            [mkRawRow (day 1) (Some 16) (Some 16);
             mkRawRow (day 0) (Some 16) (Some 16);
             mkRawRow (day 2) (Some 16) None]
            [mkRawRow (day 0) (Some 16) (Some 16);
             mkRawRow (day 1) (Some 24) (Some 24);
             mkRawRow (day 2) (Some 24) (Some 24)]
            16 0 0 sample_params).
  vm_compute. reflexivity.
Defined.

(** ** Slippage *)

Lemma slippage_fraction_nonneg (slip : Q) : 0 <= slip -> 0 <= slip / bps.
Proof.
  intro H. unfold bps. apply Qle_shift_div_l; [reflexivity|]. lra.
Qed.

Lemma exec_price_sell_nonneg (open_px slip : Q) :
  0 <= open_px -> slip <= bps -> 0 <= exec_price open_px slip "sell".
Proof.
  intros Ho Hle.
  change (exec_price open_px slip "sell") with (open_px * (1 - slip / bps)).
  assert (H1 : slip / bps <= 1).
  { unfold bps in *. apply Qle_shift_div_r; [reflexivity|]. lra. }
  apply Qmult_le_0_compat; [exact Ho|lra].
Qed.

(** X18: Slippage works against the trader: for an open and a slippage that are
    not negative a sell fills at or below the open and a buy at or above it,
    and up to 10000 bps the sell price is not negative. *)
Theorem exec_price_against_trader (open_px slip : Q) :
  0 <= open_px -> 0 <= slip ->
  exec_price open_px slip "sell" <= open_px /\
  open_px <= exec_price open_px slip "buy" /\
  (slip <= bps -> 0 <= exec_price open_px slip "sell").
Proof.
  intros Ho Hs.
  split; [|split; [|now apply exec_price_sell_nonneg]].
  - change (exec_price open_px slip "sell") with (open_px * (1 - slip / bps)).
    assert (Hd := slippage_fraction_nonneg slip Hs).
    assert (Hp : 0 <= open_px * (slip / bps))
      by (apply Qmult_le_0_compat; assumption).
    setoid_replace (open_px * (1 - slip / bps))
      with (open_px - open_px * (slip / bps)) by ring. lra.
  - change (exec_price open_px slip "buy") with (open_px * (1 + slip / bps)).
    assert (Hd := slippage_fraction_nonneg slip Hs).
    assert (Hp : 0 <= open_px * (slip / bps))
      by (apply Qmult_le_0_compat; assumption).
    setoid_replace (open_px * (1 + slip / bps))
      with (open_px + open_px * (slip / bps)) by ring. lra.
Qed.

Lemma exec_price_against_trader_witness :
  0 <= 24 /\ 0 <= 50 /\
  exec_price 24 50 "sell" <= 24 /\ 24 <= exec_price 24 50 "buy".
Proof.
  assert (H24 : 0 <= 24) by discriminate.
  assert (H50 : 0 <= 50) by discriminate.
  split; [exact H24|]. split; [exact H50|].
  destruct (exec_price_against_trader 24 50 H24 H50) as (H1 & H2 & _).
  split; assumption.
Defined.

(** ** Without a fee the portfolio never goes short *)

Lemma sell_leg_nonneg (params : TradeParams) (open1 open2 : Q) (st : State) :
  fee_bps params == 0 ->
  0 <= slippage_bps params -> slippage_bps params <= bps ->
  0 <= open1 -> 0 <= open2 ->
  (0 <= shares1 st)%Z -> (0 <= shares2 st)%Z -> 0 <= cash st ->
  let sold := sell_leg params open1 open2 st in
  (0 <= shares1 sold)%Z /\ (0 <= shares2 sold)%Z /\ 0 <= cash sold.
Proof.
  intros Hf Hs0 Hs1 Ho1 Ho2 H1 H2 Hc. cbv zeta. unfold sell_leg.
  assert (P1 := exec_price_sell_nonneg open1 (slippage_bps params) Ho1 Hs1).
  assert (P2 := exec_price_sell_nonneg open2 (slippage_bps params) Ho2 Hs1).
  destruct (holding1 st); cbn [shares1 shares2 cash];
    rewrite (fee_zero _ _ Hf).
  - split; [lia|]. split; [exact H2|].
    assert (N : 0 <= inject_Z (shares1 st)
                     * exec_price open1 (slippage_bps params) "sell").
    { apply Qmult_le_0_compat; [|exact P1]. rewrite <- (Zle_Qle 0). exact H1. }
    lra.
  - split; [exact H1|]. split; [lia|].
    assert (N : 0 <= inject_Z (shares2 st)
                     * exec_price open2 (slippage_bps params) "sell").
    { apply Qmult_le_0_compat; [|exact P2]. rewrite <- (Zle_Qle 0). exact H2. }
    lra.
Qed.

Lemma Qfloor_nonneg (x : Q) : 0 <= x -> (0 <= Qfloor x)%Z.
Proof.
  intro H. change 0%Z with (Qfloor 0). now apply Qfloor_resp_le.
Qed.

(** X14: With no fee, a slippage between 0 and 10000 bps, positive opens and
    initial holdings and cash that are not negative, the loop never holds a
    negative number of shares and never leaves the cash below zero. *)
Theorem no_fee_no_short (data : DataFrame) (s1 s2 : Z) (cash0 : Q)
    (params : TradeParams) (st : State) :
  positive_opens data = true ->
  fee_bps params == 0 ->
  0 <= slippage_bps params -> slippage_bps params <= bps ->
  (0 <= s1)%Z -> (0 <= s2)%Z -> 0 <= cash0 ->
  active_loop data s1 s2 cash0 params = Ok st ->
  (0 <= shares1 st)%Z /\ (0 <= shares2 st)%Z /\ 0 <= cash st.
Proof.
  intros Hopens Hf Hs0 Hs1 H1 H2 Hc Hloop. unfold active_loop in Hloop.
  apply (for_each_inv _
           (fun s => (0 <= shares1 s)%Z /\ (0 <= shares2 s)%Z /\ 0 <= cash s))
    in Hloop; [exact Hloop| |simpl; auto].
  intros s [i dt] s' _ (I1 & I2 & I3) Hstep. apply step_cases in Hstep.
  destruct Hstep as (open1 & close1 & open2 & close2 & edge
                     & (G1 & _ & G3 & _) & [->| ->]); [simpl; auto|].
  apply sget_col1d_in in G1. destruct G1 as (r1 & In1 & _ & _ & ->).
  apply sget_col1d_in in G3. destruct G3 as (r2 & In2 & _ & _ & ->).
  destruct (positive_opens_in _ _ Hopens In1) as [P1 _].
  destruct (positive_opens_in _ _ Hopens In2) as [_ P2].
  destruct (sell_leg_nonneg params (Open_1 r1) (Open_2 r2) s Hf Hs0 Hs1
              (Qlt_le_weak _ _ P1) (Qlt_le_weak _ _ P2) I1 I2 I3)
    as (S1 & S2 & S3).
  cbv zeta in S1, S2, S3 |- *.
  set (sold := sell_leg params (Open_1 r1) (Open_2 r2) s) in *.
  set (px := exec_price (if holding1 s then Open_2 r2 else Open_1 r1)
                        (slippage_bps params) "buy").
  assert (Hpx : 0 < px).
  { unfold px. apply exec_price_buy_pos; [|exact Hs0]. now destruct (holding1 s). }
  assert (Hn : (0 <= Qfloor (cash sold / px))%Z).
  { apply Qfloor_nonneg. apply Qle_shift_div_l; [exact Hpx|]. lra. }
  assert (Hfl := floor_notional_le (cash sold) px Hpx).
  unfold mark_to_close. cbn [shares1 shares2 cash].
  rewrite (fee_zero _ _ Hf).
  split; [destruct (holding1 s); lia|].
  split; [destruct (holding1 s); lia|].
  lra.
Qed.

Lemma no_fee_no_short_witness :
  exists st,
    active_loop sample_table 16 0 0 sample_params = Ok st /\
    (0 <= shares1 st)%Z /\ (0 <= shares2 st)%Z /\ 0 <= cash st.
Proof.
  eexists. split; [vm_compute; reflexivity|].
  eapply (no_fee_no_short sample_table 16 0 0 sample_params).
  - reflexivity.
  - reflexivity.
  - discriminate.
  - discriminate.
  - lia.
  - lia.
  - discriminate.
  - vm_compute. reflexivity.
Defined.


(** ** Fully invested *)

Lemma floor_residual_lt (cash_before px : Q) :
  0 < px -> cash_before - inject_Z (Qfloor (cash_before / px)) * px < px.
Proof.
  intro Hpx.
  assert (H := Qlt_floor (cash_before / px)).
  assert (Hnz : ~ px == 0) by (intro E; rewrite E in Hpx; exact (Qlt_irrefl 0 Hpx)).
  assert (Hmul : cash_before / px * px == cash_before) by (field; exact Hnz).
  rewrite inject_Z_plus in H. change (inject_Z 1) with 1 in H.
  set (n := inject_Z (Qfloor (cash_before / px))) in *. clearbody n.
  apply (Qmult_lt_compat_r _ _ px Hpx) in H.
  rewrite Hmul in H.
  setoid_replace ((n + 1) * px) with (n * px + px) in H by ring.
  lra.
Qed.


